(** * Resize transform: splitting and re-buffering of columnar tables

    A shallow embedding of [ResizeTransform] and
    [ResizeTransformConfiguration] from
    [transforms/universal/resize/src/resize_transform.py].

    - A [pa.Table] is a schema together with its rows; [slice] and
      [concat_tables] are the two pyarrow operations the transform uses.
    - Python [int]s are [Z]; Python [float]s are [PyFloat.pyfloat]: NaN, the
      two infinities, or a finite value kept as an exact rational (rounding,
      overflow and underflow of finite arithmetic and signed zeros are not
      modelled; comparison follows IEEE 754, so every comparison with NaN is
      false).
    - The mutable field [self.buffer] is threaded explicitly: every method
      returns its outcome together with the instance after the call.
    - A raised exception is the [Raise] outcome; the instance after the call
      is still returned, since the code assigns [self.buffer] before raising.
*)

From Stdlib Require Import ZArith QArith Lia.
From stdpp Require Import base list list_numbers strings gmap.

Local Open Scope Z_scope.

(** ** Python floats *)

Module PyFloat.

Inductive pyfloat : Type :=
| NaN
| PInf
| NInf
| Fin (q : Q).

(** [float(z)] for an integer [z], and the exact value used when an [int]
    meets a [float] in a comparison or a sum. *)
Definition of_int (z : Z) : pyfloat := Fin (inject_Z z).

(** [a < b] *)
Definition ltb (a b : pyfloat) : bool :=
  match a, b with
  | NaN, _ | _, NaN => false
  | PInf, _ => false
  | _, NInf => false
  | NInf, _ => true
  | Fin _, PInf => true
  | Fin x, Fin y => negb (Qle_bool y x)
  end.

(** [a <= b] *)
Definition leb (a b : pyfloat) : bool :=
  match a, b with
  | NaN, _ | _, NaN => false
  | NInf, _ => true
  | _, PInf => true
  | PInf, _ => false
  | Fin _, NInf => false
  | Fin x, Fin y => Qle_bool x y
  end.

(** [a > b] *)
Definition gtb (a b : pyfloat) : bool := ltb b a.

(** [a + b] *)
Definition add (a b : pyfloat) : pyfloat :=
  match a, b with
  | NaN, _ | _, NaN => NaN
  | PInf, NInf | NInf, PInf => NaN
  | PInf, _ | _, PInf => PInf
  | NInf, _ | _, NInf => NInf
  | Fin x, Fin y => Fin (x + y)
  end.

(** The sign of a finite value: [Gt], [Eq] or [Lt] against zero. *)
Definition sign (q : Q) : comparison := (0 ?= q)%Q.

(** An infinity of the sign of [c], or NaN when [c] is zero. *)
Definition inf_of_sign (positive : bool) (c : comparison) : pyfloat :=
  match c with
  | Eq => NaN
  | Lt => if positive then PInf else NInf
  | Gt => if positive then NInf else PInf
  end.

(** [a * b] *)
Definition mul (a b : pyfloat) : pyfloat :=
  match a, b with
  | NaN, _ | _, NaN => NaN
  | PInf, PInf | NInf, NInf => PInf
  | PInf, NInf | NInf, PInf => NInf
  | PInf, Fin y | Fin y, PInf => inf_of_sign true (sign y)
  | NInf, Fin y | Fin y, NInf => inf_of_sign false (sign y)
  | Fin x, Fin y => Fin (x * y)
  end.

Definition zero : pyfloat := Fin 0.

Definition is_nan (a : pyfloat) : bool :=
  match a with NaN => true | _ => false end.

End PyFloat.

Import PyFloat.

(** ** Outcomes of a call *)

Inductive Exn : Type :=
| ValueError (msg : string)
| TypeError (msg : string).

Inductive Result (A : Type) : Type :=
| Return (a : A)
| Raise (e : Exn).

Arguments Return {A} a.
Arguments Raise {A} e.

Definition is_Raise {A} (r : Result A) : Prop :=
  match r with Raise _ => True | Return _ => False end.

(** The statistics dictionary returned next to the tables. *)
Abbreviation Stats := (gmap string Z).

(** ** Tables *)

(** A schema is the ordered list of its fields, each a name and a type. *)
Abbreviation Schema := (list (string * string)).

Section Table.

Context {Row : Type}.

Record Table : Type := mkTable {
  schema : Schema;
  rows : list Row
}.

(** [table.num_rows] *)
Definition num_rows (t : Table) : Z := Z.of_nat (length (rows t)).

(** [table.slice(offset=offset, length=length)]: the rows from [offset]
    on, at most [length] of them, under the same schema. *)
Definition slice (t : Table) (offset length : Z) : Table :=
  mkTable (schema t) (take (Z.to_nat length) (drop (Z.to_nat offset) (rows t))).

(** [pyarrow.concat_tables([a, b])]: fails unless both schemas are equal. *)
Definition concat_tables (a b : Table) : option Table :=
  if decide (schema a = schema b)
  then Some (mkTable (schema a) (rows a ++ rows b))
  else None.

End Table.

Arguments Table Row : clear implicits.

(** ** Module constants of [resize_transform.py] *)

Definition max_rows_per_table_key : string := "max_rows_per_table".
Definition max_mbytes_per_table_key : string := "max_mbytes_per_table".
Definition size_type_key : string := "size_type".
Definition size_type_disk : string := "disk".
Definition size_type_memory : string := "memory".
Definition size_type_default : string := size_type_disk.

(** [sub in s] on Python strings: [sub] occurs somewhere in [s]. *)
Fixpoint str_in (sub s : string) : bool :=
  String.prefix sub s ||
  match s with
  | EmptyString => false
  | String _ s' => str_in sub s'
  end.

(** The configuration dictionary, restricted to the three keys that the
    transform reads; a key that is absent is [None]. *)
Record Config : Type := mkConfig {
  cfg_max_rows_per_table : option Z;
  cfg_max_mbytes_per_table : option pyfloat;
  cfg_size_type : option string
}.

(** ** The transform *)

Section Resize.

Context {Row : Type}.

(** [table.nbytes], pyarrow's size estimate of a table. *)
Variable nbytes : Table Row -> Z.

(** [MB] and [LOCAL_TO_DISK] of [data_processing.utils]: the number of
    bytes in a megabyte and the factor by which the [disk] size type
    scales the byte budget. *)
Variables MB LOCAL_TO_DISK : pyfloat.

(** The fields of a [ResizeTransform] instance. *)
Record ResizeTransform : Type := mkResizeTransform {
  max_rows_per_table : Z;
  max_bytes_per_table : pyfloat;
  buffer : option (Table Row)
}.

Definition set_buffer (self : ResizeTransform) (b : option (Table Row))
  : ResizeTransform :=
  mkResizeTransform (max_rows_per_table self) (max_bytes_per_table self) b.

(** [ResizeTransform.__init__] *)
Definition init (config : Config) : Result ResizeTransform :=
  let max_rows_per_table := default 0 (cfg_max_rows_per_table config) in
  let max_bytes_per_table :=
    mul MB (default (of_int 0) (cfg_max_mbytes_per_table config)) in
  let disk_memory := default size_type_default (cfg_size_type config) in
  let max_bytes_per_table :=
    if str_in size_type_default disk_memory
    then mul max_bytes_per_table LOCAL_TO_DISK
    else max_bytes_per_table in
  if bool_decide (max_rows_per_table <= 0) && leb max_bytes_per_table zero
  then Raise (ValueError "Neither max rows per table nor max table size are defined")
  else if bool_decide (max_rows_per_table > 0) && gtb max_bytes_per_table zero
  then Raise (ValueError "Both max rows per table and max table size are defined. Only one should be present")
  else Return (mkResizeTransform max_rows_per_table max_bytes_per_table None).

(** Lines 75-88 of [transform]: the buffered table, when there is one, is
    put in front of the incoming table. When the concatenation fails the
    incoming table replaces the buffer and [ValueError] is raised. *)
Definition merge_buffer (self : ResizeTransform) (table : Table Row)
  : Result (Table Row) * ResizeTransform :=
  match buffer self with
  | Some b =>
      match concat_tables b table with
      | Some table' => (Return table', set_buffer self None)
      | None =>
          (Raise (ValueError "Can not concatenate buffered table with input table. Dropping buffer and proceeding."),
           set_buffer self (Some table))
      end
  | None => (Return table, self)
  end.

(** The [while] loop of the row branch. Its state is
    [(result, start_row, rows_left)]; [fuel] bounds the number of
    iterations and [row_split] below supplies one unit per row, which
    [row_loop_spec] shows to be enough for the loop to leave by its own
    test. *)
Fixpoint row_loop (fuel : nat) (table : Table Row) (max_rows n_rows : Z)
    (result : list (Table Row)) (start_row rows_left : Z)
  : list (Table Row) * Z * Z :=
  match fuel with
  | O => (result, start_row, rows_left)
  | S fuel' =>
      if bool_decide (start_row < n_rows) && bool_decide (rows_left >= max_rows)
      then
        let length := n_rows - start_row in
        let length := if bool_decide (length > max_rows) then max_rows else length in
        let a_slice := slice table start_row length in
        row_loop fuel' table max_rows n_rows
                 (result ++ [a_slice]) (start_row + max_rows) (rows_left - max_rows)
      else (result, start_row, rows_left)
  end.

(** The row branch: [(result, start_row)] when the loop is left. *)
Definition row_split (max_rows : Z) (table : Table Row)
  : list (Table Row) * Z :=
  let n_rows := num_rows table in
  let rows_left := n_rows in
  fst (row_loop (Z.to_nat n_rows) table max_rows n_rows [] 0 rows_left).

(** One iteration of the [for n in range(table.num_rows)] loop of the
    size branch, on the state [(result, start_row, current_size)]. *)
Definition byte_step (max_bytes : pyfloat) (table : Table Row)
    (st : list (Table Row) * Z * pyfloat) (n : Z)
  : list (Table Row) * Z * pyfloat :=
  let '(result, start_row, current_size) := st in
  let current_size := add current_size (of_int (nbytes (slice table n 1))) in
  if gtb current_size max_bytes
  then (result ++ [slice table start_row (n - start_row)], n, zero)
  else (result, start_row, current_size).

(** The size branch: [(result, start_row)] after the scan. *)
Definition byte_split (max_bytes : pyfloat) (table : Table Row)
  : list (Table Row) * Z :=
  if gtb (of_int (nbytes table)) max_bytes
  then fst (foldl (byte_step max_bytes table) ([], 0, zero)
                  (seqZ 0 (num_rows table)))
  else ([], 0).

(** Lines 90-124 of [transform], on the working table. *)
Definition split_table (self : ResizeTransform) (table : Table Row)
  : Result (list (Table Row) * Stats) * ResizeTransform :=
  let '(result, start_row) :=
    if bool_decide (max_rows_per_table self > 0)
    then row_split (max_rows_per_table self) table
    else byte_split (max_bytes_per_table self) table in
  let self' :=
    if bool_decide (start_row < num_rows table)
    then set_buffer self
           (Some (slice table start_row (num_rows table - start_row)))
    else self in
  (Return (result, ∅), self').

(** [ResizeTransform.transform] *)
Definition transform (self : ResizeTransform) (table : Table Row)
  : Result (list (Table Row) * Stats) * ResizeTransform :=
  match merge_buffer self table with
  | (Return table', self') => split_table self' table'
  | (Raise e, self') => (Raise e, self')
  end.

(** [ResizeTransform.flush] *)
Definition flush (self : ResizeTransform)
  : Result (list (Table Row) * Stats) * ResizeTransform :=
  match buffer self with
  | Some b => (Return ([b], ∅), set_buffer self None)
  | None => (Return ([], ∅), self)
  end.

(** Modelled from the spec: the Runtime calls [transform] once per input
    table, "in partition-local arrival order". The tables returned are
    collected in order; an exception ends the run. *)
Fixpoint feed (self : ResizeTransform) (tables : list (Table Row))
  : Result (list (Table Row)) * ResizeTransform :=
  match tables with
  | [] => (Return [], self)
  | t :: tables' =>
      match transform self t with
      | (Raise e, self') => (Raise e, self')
      | (Return (outs, _), self') =>
          match feed self' tables' with
          | (Return outs', self'') => (Return (outs ++ outs'), self'')
          | (Raise e, self'') => (Raise e, self'')
          end
      end
  end.

(** Modelled from the spec: the Runtime, an external collaborator of the
    transform, "feeds it batches in partition order, calls flush exactly
    once at partition end"; the tables of all calls are kept in order. *)
Definition run_partition (self : ResizeTransform) (tables : list (Table Row))
  : Result (list (Table Row)) * ResizeTransform :=
  match feed self tables with
  | (Raise e, self') => (Raise e, self')
  | (Return outs, self') =>
      match flush self' with
      | (Return (last, _), self'') => (Return (outs ++ last), self'')
      | (Raise e, self'') => (Raise e, self'')
      end
  end.

End Resize.

Arguments ResizeTransform Row : clear implicits.

(** The size estimate of one row under a schema, as the scan takes it:
    [table.slice(offset=n, length=1).nbytes]. *)
Definition row_size {Row : Type} (nbytes : Table Row -> Z) (s : Schema)
    (r : Row) : Z :=
  nbytes (mkTable s [r]).

(** The rows that an instance holds back: those of the buffered table. *)
Definition buffered_rows {Row : Type} (self : ResizeTransform Row) : list Row :=
  match buffer self with
  | Some b => rows b
  | None => []
  end.

(** ** The configuration class *)

(** [ResizeTransformConfiguration.apply_input_params], on the captured
    parameters ([self.params] is empty before, so afterwards it is exactly
    the captured dictionary). [params.get(key)] of an absent key is [None],
    and ordering [None] against [0] raises [TypeError]: in the first test,
    unless a positive row limit makes it stop before the byte limit is
    looked at, and then in the second. *)
Definition apply_input_params (params : Config) : Result bool :=
  match cfg_max_rows_per_table params, cfg_max_mbytes_per_table params with
  | Some max_rows, Some max_mbytes =>
      if bool_decide (max_rows <= 0) && leb max_mbytes (of_int 0)
      then Return false
      else if bool_decide (max_rows > 0) && gtb max_mbytes (of_int 0)
      then Return false
      else Return true
  | Some max_rows, None =>
      if bool_decide (max_rows <= 0)
      then Raise (TypeError "'<=' not supported between instances of 'NoneType' and 'int'")
      else Raise (TypeError "'>' not supported between instances of 'NoneType' and 'int'")
  | None, _ => Raise (TypeError "'<=' not supported between instances of 'NoneType' and 'int'")
  end.

(** ** The size scan in the words of the specification *)

Section SpecScan.

Context {Row : Type}.

(** Section 4.4, step 3, on the rows themselves rather than on offsets:
    the rows still to scan, the chunk that is open, and the running total.
    Each row adds its single-row estimate to the running total; when the
    total exceeds the limit the open chunk is closed before that row, the
    row opens the next chunk, and the total restarts from zero. What is
    open when the rows run out is what stays behind for the buffer.
    Returns the closed chunks in order and the chunk left open. *)
Fixpoint spec_scan (size : Row -> Z) (limit : pyfloat)
    (todo chunk : list Row) (running : pyfloat)
  : list (list Row) * list Row :=
  match todo with
  | [] => ([], chunk)
  | r :: todo' =>
      let running := add running (of_int (size r)) in
      if gtb running limit
      then
        let '(closed, open) := spec_scan size limit todo' [r] zero in
        (chunk :: closed, open)
      else spec_scan size limit todo' (chunk ++ [r]) running
  end.

End SpecScan.

(** ** Estimates of several rows *)

(** The single-row estimates of some rows under a schema, added up: what
    the running total of the size scan holds after these rows, counted from
    zero. *)
Definition rows_estimate {Row : Type} (nbytes : Table Row -> Z) (s : Schema)
    (l : list Row) : Z :=
  foldr (fun r acc => row_size nbytes s r + acc) 0 l.

(** ** Command-line arguments *)

(** What a command line gives for the three arguments that
    [ResizeTransformConfiguration.add_input_params] declares, each of them
    optional. *)
Record CommandLine : Type := mkCommandLine {
  given_max_rows_per_table : option Z;
  given_max_mbytes_per_table : option pyfloat;
  given_size_type : option string
}.

(** The defaults declared by [add_input_params]: [default=-1] for both
    limits (an [int] in either case, as argparse converts only defaults that
    are strings) and [size_type_default] for the size type. *)
Definition default_max_rows_per_table : Z := -1.
Definition default_max_mbytes_per_table : pyfloat := of_int (-1).

(** The parameters that [apply_input_params] captures from the parsed
    arguments: every declared argument is there, with its default when the
    command line does not give it. *)
Definition captured_params (cl : CommandLine) : Config :=
  mkConfig
    (Some (default default_max_rows_per_table (given_max_rows_per_table cl)))
    (Some (default default_max_mbytes_per_table (given_max_mbytes_per_table cl)))
    (Some (default size_type_default (given_size_type cl))).

(** ** Sample data

    Rows that are plain integers, each standing for a record of that many
    bytes, so that a table's size estimate is the sum of its rows. *)

Module Sample.

Definition schema_a : Schema := [("contents", "string")].
Definition schema_b : Schema := [("contents", "string"); ("id", "int64")].

Definition nbytes (t : Table Z) : Z := foldr Z.add 0 (rows t).

Definition table (s : Schema) (sizes : list Z) : Table Z := mkTable s sizes.

(** An instance in row mode and one in size mode, with an empty buffer. *)
Definition by_rows (R : Z) : ResizeTransform Z :=
  mkResizeTransform R (of_int 0) None.
Definition by_bytes (B : Z) : ResizeTransform Z :=
  mkResizeTransform (-1) (of_int B) None.

(** The same instance with [b] in its buffer. *)
Definition holding (self : ResizeTransform Z) (b : Table Z)
  : ResizeTransform Z :=
  set_buffer self (Some b).

(** 2500 rows of 8 bytes, 400 rows of 8 bytes, a table without rows. *)
Definition rows_2500 : Table Z := table schema_a (replicate 2500 8).
Definition rows_400 : Table Z := table schema_a (replicate 400 8).
Definition no_rows : Table Z := table schema_a [].

(** Four rows of 3 bytes; a row of 7 bytes followed by three of 3 bytes;
    two rows under the second schema. *)
Definition threes : Table Z := table schema_a [3; 3; 3; 3].
Definition seven_first : Table Z := table schema_a [7; 3; 3; 3].
Definition other_schema : Table Z := table schema_b [16; 16].

(** 2500 rows under the second schema. *)
Definition other_schema_2500 : Table Z := table schema_b (replicate 2500 16).

(** The parameters [--resize_max_rows_per_table -1
    --resize_max_mbytes_per_table nan], as argparse hands them over. *)
Definition nan_params : Config :=
  mkConfig (Some (-1)) (Some NaN) (Some size_type_default).

End Sample.

(** * Properties *)

(** ** Comparisons of Python floats *)

Section PyFloatFacts.

Lemma gtb_of_leb (a b : pyfloat) : leb a b = true -> gtb a b = false.
Proof.
  unfold gtb.
  destruct a as [ | | |x], b as [ | | |y]; simpl; try congruence.
  intros ->. reflexivity.
Qed.

Lemma add_zero_of_int_gtb (z : Z) (b : pyfloat) :
  gtb (add zero (of_int z)) b = gtb (of_int z) b.
Proof.
  unfold gtb, zero, of_int. simpl.
  destruct b as [ | | |y]; simpl; try reflexivity.
  f_equal. apply eq_true_iff_eq.
  rewrite !Qle_bool_iff, Qplus_0_l. reflexivity.
Qed.

(** Against zero a float is positive, not positive, or NaN; only NaN is
    neither [> 0] nor [<= 0]. *)
Lemma gtb_zero_or_leb_zero (a : pyfloat) :
  is_nan a = false -> gtb a (of_int 0) = negb (leb a (of_int 0)).
Proof.
  unfold gtb, of_int.
  destruct a as [ | | |x]; simpl; try congruence; reflexivity.
Qed.

End PyFloatFacts.

(** ** Validation of the parameters *)

(** For limits that are numbers, [apply_input_params] accepts exactly the
    configurations in which one limit is positive and the other is not. *)
Lemma apply_input_params_exactly_one (max_rows : Z) (max_mbytes : pyfloat)
    (size_type : option string) :
  is_nan max_mbytes = false ->
  apply_input_params (mkConfig (Some max_rows) (Some max_mbytes) size_type)
  = Return (xorb (bool_decide (max_rows > 0)) (gtb max_mbytes (of_int 0))).
Proof.
  intros Hnan. unfold apply_input_params.
  cbn [cfg_max_rows_per_table cfg_max_mbytes_per_table].
  rewrite (gtb_zero_or_leb_zero _ Hnan).
  destruct (leb max_mbytes (of_int 0)); simpl;
    repeat case_bool_decide; simpl; try reflexivity; lia.
Qed.

(** Scaling by a positive constant keeps the sign of a limit. *)
Lemma Qle_bool_scale_l (c q : Q) :
  (0 < c)%Q -> Qle_bool (c * q) 0 = Qle_bool q 0.
Proof.
  intros Hc. apply eq_true_iff_eq. rewrite !Qle_bool_iff.
  rewrite <- (Qmult_le_l q 0 c Hc), Qmult_0_r. reflexivity.
Qed.

Lemma Qle_bool_scale_r (c q : Q) :
  (0 < c)%Q -> Qle_bool (q * c) 0 = Qle_bool q 0.
Proof. intros Hc. rewrite <- (Qle_bool_scale_l c q Hc).
  apply eq_true_iff_eq. rewrite !Qle_bool_iff, (Qmult_comm q c). reflexivity. Qed.

Lemma sign_pos (c : Q) : (0 < c)%Q -> sign c = Lt.
Proof. intros H. exact H. Qed.

Lemma scale_sign (c d : Q) (x : pyfloat) :
  (0 < c)%Q -> (0 < d)%Q ->
  let y := mul (Fin c) x in
  (leb y zero = leb x (of_int 0) /\ gtb y zero = gtb x (of_int 0)) /\
  (leb (mul y (Fin d)) zero = leb x (of_int 0) /\
   gtb (mul y (Fin d)) zero = gtb x (of_int 0)).
Proof.
  intros Hc Hd. unfold gtb, zero, of_int.
  destruct x as [ | | |q]; cbn [mul ltb leb];
    rewrite ?(sign_pos c Hc); cbn [inf_of_sign mul ltb leb];
    rewrite ?(sign_pos d Hd); cbn [inf_of_sign mul ltb leb]; try done.
  rewrite ?(Qle_bool_scale_r d) by assumption.
  rewrite !(Qle_bool_scale_l c) by assumption. done.
Qed.

(** So does [__init__], when [MB] and [LOCAL_TO_DISK] are positive numbers;
    a limit that is NaN is let through whatever the other limit is. *)
Lemma init_exactly_one {Row : Type} (mb ltd : Q) (max_rows : Z) (max_mbytes : pyfloat)
    (size_type : option string) :
  (0 < mb)%Q -> (0 < ltd)%Q ->
  (exists self : ResizeTransform Row,
      init (Fin mb) (Fin ltd) (mkConfig (Some max_rows) (Some max_mbytes) size_type)
      = Return self)
  <-> is_nan max_mbytes = true \/
      xorb (bool_decide (max_rows > 0)) (gtb max_mbytes (of_int 0)) = true.
Proof.
  intros Hmb Hltd. unfold init.
  cbn [cfg_max_rows_per_table cfg_max_mbytes_per_table cfg_size_type
       default from_option id].
  destruct (scale_sign mb ltd max_mbytes Hmb Hltd) as [[Hl1 Hg1] [Hl2 Hg2]].
  cbv zeta in Hl1, Hg1, Hl2, Hg2.
  assert (forall (A : Type) (x : A), (exists y, Return x = Return y) <-> True) as Hret
    by (intros A x; split; eauto).
  assert (forall (A : Type) (e : Exn), (exists y : A, Raise e = Return y) <-> False)
    as Hraise by (intros A e; split; [intros [y [=]]|tauto]).
  destruct (str_in size_type_default (default size_type_default size_type));
    rewrite ?Hl1, ?Hg1, ?Hl2, ?Hg2; clear Hl1 Hg1 Hl2 Hg2.
  all: destruct (is_nan max_mbytes) eqn:Hnan;
    [ destruct max_mbytes; try discriminate; cbn [leb gtb ltb];
      rewrite !andb_false_r, Hret; tauto
    | rewrite (gtb_zero_or_leb_zero _ Hnan);
      destruct (leb max_mbytes (of_int 0));
      repeat case_bool_decide; cbn [andb negb xorb];
      rewrite ?Hret, ?Hraise; try lia; intuition discriminate ].
Qed.

(** C8 (the code departs from the claim): with [max_rows_per_table = -1] and
    [max_mbytes_per_table = nan] neither limit is positive, yet
    [apply_input_params] answers [True] and [__init__] builds the instance,
    whatever [MB] and [LOCAL_TO_DISK] are: both tests compare NaN with zero,
    and both comparisons are false. *)
Theorem validation_accepts_nan_limit :
  bool_decide (-1 > 0) = false /\
  gtb NaN (of_int 0) = false /\
  apply_input_params Sample.nan_params = Return true /\
  forall MB LOCAL_TO_DISK : pyfloat,
    init (Row := Z) MB LOCAL_TO_DISK Sample.nan_params
    = Return (mkResizeTransform (-1) NaN None).
Proof.
  repeat split.
  intros MB LOCAL_TO_DISK. unfold init. simpl.
  destruct MB; reflexivity.
Qed.

(** ** Flush and the calls that follow it *)

Section FlushFacts.

Context {Row : Type}.
Variable nbytes : Table Row -> Z.

Implicit Types (self : ResizeTransform Row) (table : Table Row).

Lemma set_buffer_same self : buffer self = None -> set_buffer self None = self.
Proof. destruct self; simpl; intros ->; reflexivity. Qed.

Lemma flush_state self : snd (flush self) = set_buffer self None.
Proof.
  unfold flush. destruct (buffer self) eqn:E; simpl; [reflexivity|].
  symmetry. apply set_buffer_same, E.
Qed.

Lemma split_table_returns self table :
  exists outs self', split_table nbytes self table = (Return (outs, ∅), self').
Proof.
  unfold split_table.
  destruct (if bool_decide (max_rows_per_table self > 0)
            then row_split (max_rows_per_table self) table
            else byte_split nbytes (max_bytes_per_table self) table)
    as [result start_row].
  eauto.
Qed.

(** C7: [flush] returns the buffered table alone when there is one and
    nothing when there is none, with empty statistics; afterwards the
    buffer is empty and the limits are as before. The tables returned
    depend on the buffer only: under any other row or byte limit the same
    buffer is returned whole, whatever its size. *)
Theorem flush_returns_buffer self :
  (forall b, buffer self = Some b -> fst (flush self) = Return ([b], ∅)) /\
  (buffer self = None -> fst (flush self) = Return ([], ∅)) /\
  snd (flush self) = set_buffer self None /\
  buffer (snd (flush self)) = None /\
  (forall max_rows max_bytes,
      fst (flush (mkResizeTransform max_rows max_bytes (buffer self)))
      = fst (flush self)).
Proof.
  split; [|split; [|split; [|split]]].
  - intros b Hb. unfold flush. rewrite Hb. reflexivity.
  - intros Hb. unfold flush. rewrite Hb. reflexivity.
  - apply flush_state.
  - rewrite flush_state. reflexivity.
  - intros max_rows max_bytes. unfold flush. simpl.
    destruct (buffer self); reflexivity.
Qed.

(** C3 (as amended): the instance has no flushed state. After [flush] the
    buffer is empty; a second [flush] returns no table and empty
    statistics and leaves the instance as it is; a [transform] after
    [flush] splits the incoming table as an instance with an empty buffer
    does, and returns. *)
Theorem calls_after_flush self :
  let flushed := snd (flush self) in
  buffer flushed = None /\
  flush flushed = (Return ([], ∅), flushed) /\
  forall table,
    transform nbytes flushed table = split_table nbytes flushed table /\
    exists outs self',
      transform nbytes flushed table = (Return (outs, ∅), self').
Proof.
  simpl. rewrite flush_state.
  split; [reflexivity|]. split; [reflexivity|].
  intros table.
  assert (transform nbytes (set_buffer self None) table
          = split_table nbytes (set_buffer self None) table) as Heq
    by reflexivity.
  split; [exact Heq|].
  rewrite Heq. apply split_table_returns.
Qed.

(** C4 (as amended): [transform] raises [ValueError] exactly when a table
    is buffered whose schema differs from the schema of the incoming
    table. In that case no table is returned and the incoming table takes
    the place of the buffer; in every other case the call returns. *)
Theorem transform_raises_on_mismatch self table :
  (forall b, buffer self = Some b -> schema b <> schema table ->
     transform nbytes self table
     = (Raise (ValueError "Can not concatenate buffered table with input table. Dropping buffer and proceeding."),
        set_buffer self (Some table))) /\
  ((forall b, buffer self = Some b -> schema b = schema table) ->
     exists outs self',
       transform nbytes self table = (Return (outs, ∅), self')).
Proof.
  unfold transform, merge_buffer, concat_tables. split.
  - intros b Hb Hne. rewrite Hb.
    destruct (decide (schema b = schema table)); [contradiction|reflexivity].
  - intros Hs. destruct (buffer self) as [b|] eqn:Hb.
    + rewrite decide_True by (apply Hs; reflexivity).
      apply split_table_returns.
    + apply split_table_returns.
Qed.

End FlushFacts.

(** ** Tables and slices *)

Section TableFacts.

Context {Row : Type}.
Implicit Types (t : Table Row).

Lemma num_rows_nonneg t : 0 <= num_rows t.
Proof. unfold num_rows. lia. Qed.

Lemma num_rows_slice t offset length :
  0 <= offset -> 0 <= length -> offset + length <= num_rows t ->
  num_rows (slice t offset length) = length.
Proof.
  unfold num_rows, slice. simpl. intros Ho Hl Hn.
  rewrite length_take, length_drop. lia.
Qed.

Lemma slice_to_end t offset :
  0 <= offset ->
  slice t offset (num_rows t - offset)
  = mkTable (schema t) (drop (Z.to_nat offset) (rows t)).
Proof.
  intros Ho. unfold slice, num_rows. f_equal.
  apply take_ge. rewrite length_drop. lia.
Qed.

Lemma slice_whole t : slice t 0 (num_rows t - 0) = t.
Proof. rewrite slice_to_end by lia. destruct t; reflexivity. Qed.

(** Two slices that meet are one slice of the rows before the second
    one's end. *)
Lemma take_then_slice (l : list Row) (a b : Z) :
  0 <= a -> 0 <= b ->
  take (Z.to_nat a) l ++ take (Z.to_nat b) (drop (Z.to_nat a) l)
  = take (Z.to_nat (a + b)) l.
Proof.
  intros Ha Hb. rewrite take_take_drop. f_equal. lia.
Qed.

End TableFacts.

(** ** Row mode *)

Section RowMode.

Context {Row : Type}.
Variable nbytes : Table Row -> Z.

Implicit Types (self : ResizeTransform Row) (table w : Table Row).

(** What the working table of a call is, when the call gets that far. *)
Lemma merge_buffer_Return self table w self1 :
  merge_buffer self table = (Return w, self1) ->
  self1 = set_buffer self None /\
  schema w = schema table /\
  rows w = buffered_rows self ++ rows table /\
  (forall b, buffer self = Some b -> schema b = schema table).
Proof.
  unfold merge_buffer, concat_tables, buffered_rows.
  destruct (buffer self) as [b|] eqn:Hb.
  - destruct (decide (schema b = schema table)) as [Hs|Hs]; [|discriminate].
    intros [= <- <-]. simpl. repeat split; try done.
    intros b' [= <-]. exact Hs.
  - intros [= <- <-]. repeat split; try done.
    symmetry. apply set_buffer_same, Hb.
Qed.

(** The [while] loop, started at [start_row] with [rows_left] the number
    of rows from there on and one unit of fuel per such row: it leaves by
    its own test, fewer than [max_rows] rows from the end, and what it
    appended are slices of exactly [max_rows] rows that follow each other
    from [start_row]. *)
Lemma row_loop_spec table (max_rows : Z) :
  0 < max_rows ->
  forall (fuel : nat) (result : list (Table Row)) (start_row : Z),
    0 <= start_row <= num_rows table ->
    num_rows table - start_row <= Z.of_nat fuel ->
    exists extra start_row',
      row_loop fuel table max_rows (num_rows table) result start_row
               (num_rows table - start_row)
      = (result ++ extra, start_row', num_rows table - start_row') /\
      start_row <= start_row' <= num_rows table /\
      num_rows table - start_row' < max_rows /\
      start_row' - start_row = max_rows * Z.of_nat (length extra) /\
      Forall (fun o => num_rows o = max_rows /\ schema o = schema table) extra /\
      concat (rows <$> extra)
      = take (Z.to_nat (start_row' - start_row))
             (drop (Z.to_nat start_row) (rows table)).
Proof.
  intros HM. induction fuel as [|fuel IH]; intros result start_row Hs Hf.
  - exists [], start_row. cbn [row_loop length]. rewrite app_nil_r.
    replace (start_row - start_row) with 0 by lia.
    repeat split; try lia; constructor.
  - simpl.
    destruct (bool_decide (start_row < num_rows table)
              && bool_decide (num_rows table - start_row >= max_rows)) eqn:Hg.
    + apply andb_true_iff in Hg as [Hlt Hge].
      apply bool_decide_eq_true in Hlt, Hge.
      set (len := if bool_decide (num_rows table - start_row > max_rows)
                  then max_rows else num_rows table - start_row).
      assert (len = max_rows) as Hlen
        by (subst len; case_bool_decide; lia).
      destruct (IH (result ++ [slice table start_row len])
                   (start_row + max_rows)) as (extra & s' & Hrun & Hb & Hx & Hk & Hall & Hcat);
        [lia|lia|].
      replace (num_rows table - (start_row + max_rows))
        with (num_rows table - start_row - max_rows) in Hrun by lia.
      exists (slice table start_row len :: extra), s'.
      rewrite Hrun, <- app_assoc. cbn [app length].
      repeat split; try lia.
      * constructor; [|exact Hall]. split; [|reflexivity].
        rewrite Hlen. apply num_rows_slice; lia.
      * rewrite fmap_cons. cbn [concat]. rewrite Hcat, Hlen.
        change (rows (slice table start_row max_rows))
          with (take (Z.to_nat max_rows)
                     (drop (Z.to_nat start_row) (rows table))).
        replace (Z.to_nat (start_row + max_rows))
          with (Z.to_nat start_row + Z.to_nat max_rows)%nat by lia.
        rewrite <- drop_drop.
        rewrite (take_then_slice (drop (Z.to_nat start_row) (rows table)))
          by lia.
        f_equal. lia.
    + exists [], start_row. rewrite app_nil_r.
      replace (start_row - start_row) with 0 by lia.
      apply andb_false_iff in Hg. cbn [length].
      repeat split; try lia; try constructor.
      destruct Hg as [Hg|Hg]; apply bool_decide_eq_false in Hg; lia.
Qed.

(** The row branch as a whole. *)
Lemma row_split_spec table (max_rows : Z) :
  0 < max_rows ->
  exists outs start_row,
    row_split max_rows table = (outs, start_row) /\
    0 <= start_row <= num_rows table /\
    num_rows table - start_row < max_rows /\
    start_row = max_rows * Z.of_nat (length outs) /\
    Forall (fun o => num_rows o = max_rows /\ schema o = schema table) outs /\
    concat (rows <$> outs) = take (Z.to_nat start_row) (rows table).
Proof.
  intros HM. unfold row_split.
  pose proof (num_rows_nonneg table) as Hn.
  destruct (row_loop_spec table max_rows HM (Z.to_nat (num_rows table)) [] 0)
    as (extra & s' & Hrun & Hb & Hx & Hk & Hall & Hcat); [lia|lia|].
  rewrite Z.sub_0_r in Hrun. rewrite Hrun. simpl.
  exists extra, s'. rewrite Z.sub_0_r in Hk, Hcat.
  repeat split; try lia; assumption.
Qed.

(** Lines 90-124 in row mode, on an instance whose buffer is empty (as it
    is once the working table has been formed). *)
Lemma split_table_row_mode self w :
  0 < max_rows_per_table self ->
  buffer self = None ->
  exists outs k,
    split_table nbytes self w
    = (Return (outs, ∅),
       set_buffer self
         (if bool_decide (k < num_rows w)
          then Some (mkTable (schema w) (drop (Z.to_nat k) (rows w)))
          else None)) /\
    0 <= k <= num_rows w /\
    num_rows w - k < max_rows_per_table self /\
    k = max_rows_per_table self * Z.of_nat (length outs) /\
    Forall (fun o => num_rows o = max_rows_per_table self) outs /\
    concat (rows <$> outs) = take (Z.to_nat k) (rows w).
Proof.
  intros HM Hbuf. unfold split_table.
  rewrite bool_decide_eq_true_2 by lia.
  destruct (row_split_spec w (max_rows_per_table self) HM)
    as (outs & k & -> & Hk & Hrem & Hlen & Hall & Hcat).
  exists outs, k. repeat split; try assumption; try lia.
  - case_bool_decide.
    + rewrite slice_to_end by lia. reflexivity.
    + rewrite set_buffer_same by assumption. reflexivity.
  - eapply Forall_impl; [exact Hall|]. intros o [Ho _]. exact Ho.
Qed.

(** C2 (as amended): in row mode with limit [R], a call of [transform]
    that does not raise, and so gets to splitting its working table [w],
    returns [num_rows w / R] tables of
    exactly [R] rows each, the first rows of [w] in order; the rows after
    them, [num_rows w mod R] of them and so fewer than [R], are the buffer
    after the call, and there is no buffer when no row remains. With 2500
    rows and [R = 1000] the tables returned have 1000 and 1000 rows and
    the buffer has 500. *)
Theorem row_mode_transform self table w self1 :
  let R := max_rows_per_table self in
  R > 0 ->
  merge_buffer self table = (Return w, self1) ->
  exists outs self',
    transform nbytes self table = (Return (outs, ∅), self') /\
    Forall (fun o => num_rows o = R) outs /\
    Z.of_nat (length outs) = num_rows w / R /\
    concat (rows <$> outs) = take (Z.to_nat (R * (num_rows w / R))) (rows w) /\
    0 <= num_rows w `mod` R < R /\
    match buffer self' with
    | Some b =>
        rows b = drop (Z.to_nat (R * (num_rows w / R))) (rows w) /\
        num_rows b = num_rows w `mod` R /\
        0 < num_rows b < R
    | None => num_rows w `mod` R = 0
    end /\
    (num_rows w = 2500 -> R = 1000 ->
     num_rows <$> outs = [1000; 1000] /\
     exists b, buffer self' = Some b /\ num_rows b = 500).
Proof.
  intros R HR Hmerge.
  assert (0 < R) as HR' by lia.
  unfold transform. rewrite Hmerge.
  apply merge_buffer_Return in Hmerge as (-> & _ & _ & _).
  destruct (split_table_row_mode (set_buffer self None) w HR' eq_refl)
    as (outs & k & -> & Hk & Hrem & Hlen & Hall & Hcat).
  cbn [max_rows_per_table set_buffer] in Hrem, Hlen, Hall. fold R in Hrem, Hlen, Hall.
  assert (Z.of_nat (length outs) = num_rows w / R) as Hq.
  { apply (Z.div_unique_pos _ _ _ (num_rows w - k)); lia. }
  assert (num_rows w `mod` R = num_rows w - k) as Hmod.
  { symmetry. apply (Z.mod_unique_pos _ _ (Z.of_nat (length outs))); lia. }
  assert (k = R * (num_rows w / R)) as Hk' by (rewrite <- Hq; exact Hlen).
  eexists outs, _. split; [reflexivity|].
  split; [exact Hall|]. split; [exact Hq|].
  split; [rewrite <- Hk'; exact Hcat|].
  split; [rewrite Hmod; lia|].
  split.
  - cbn [buffer set_buffer]. rewrite <- Hk'. case_bool_decide.
    + cbn [rows]. split; [reflexivity|]. rewrite Hmod.
      clear Hq Hmod Hk'. unfold num_rows in *. cbn [rows].
      rewrite length_drop. lia.
    + lia.
  - intros Hn ->. rewrite Hn in *.
    assert (length outs = 2%nat) as Hlen2.
    { change (2500 / 1000) with 2 in Hq. lia. }
    destruct outs as [|o1 [|o2 [|o3 outs]]]; try discriminate.
    apply Forall_cons in Hall as [Ho1 Hall].
    apply Forall_cons in Hall as [Ho2 _].
    split; [cbn; rewrite Ho1, Ho2; reflexivity|].
    cbn [buffer set_buffer].
    rewrite bool_decide_eq_true_2 by (cbn [length] in Hlen; lia).
    eexists. split; [reflexivity|].
    unfold num_rows. cbn [rows]. rewrite length_drop.
    unfold num_rows in Hn. cbn [length] in Hlen. lia.
Qed.

(** A call in row mode on tables of one schema: it returns, the limit and
    the schema of what is buffered stay, and the rows returned followed by
    the rows buffered afterwards are the rows buffered before followed by
    the rows of the incoming table. *)
Lemma transform_row_mode_conserves (s : Schema) self table :
  0 < max_rows_per_table self ->
  schema table = s ->
  (forall b, buffer self = Some b -> schema b = s) ->
  exists outs self',
    transform nbytes self table = (Return (outs, ∅), self') /\
    max_rows_per_table self' = max_rows_per_table self /\
    (forall b, buffer self' = Some b -> schema b = s) /\
    concat (rows <$> outs) ++ buffered_rows self'
    = buffered_rows self ++ rows table.
Proof.
  intros HM Hs Hb.
  destruct (merge_buffer self table) as [[w|e] self1] eqn:Hmerge.
  - unfold transform. rewrite Hmerge.
    apply merge_buffer_Return in Hmerge as (-> & Hsw & Hrw & _).
    destruct (split_table_row_mode (set_buffer self None) w HM eq_refl)
      as (outs & k & -> & Hk & _ & _ & _ & Hcat).
    eexists outs, _. split; [reflexivity|].
    split; [reflexivity|]. split.
    + cbn [buffer set_buffer]. case_bool_decide; [|discriminate].
      intros b [= <-]. cbn [schema]. congruence.
    + rewrite <- Hrw, Hcat. unfold buffered_rows. cbn [buffer set_buffer].
      case_bool_decide.
      * cbn [rows]. apply take_drop.
      * rewrite app_nil_r. apply take_ge. unfold num_rows in *. lia.
  - exfalso. unfold merge_buffer, concat_tables in Hmerge.
    destruct (buffer self) as [b|]; [|discriminate].
    rewrite decide_True in Hmerge by (rewrite (Hb b eq_refl); congruence).
    discriminate.
Qed.

Lemma feed_row_mode_conserves (s : Schema) (tables : list (Table Row)) :
  forall self,
    0 < max_rows_per_table self ->
    Forall (fun t => schema t = s) tables ->
    (forall b, buffer self = Some b -> schema b = s) ->
    exists outs self',
      feed nbytes self tables = (Return outs, self') /\
      concat (rows <$> outs) ++ buffered_rows self'
      = buffered_rows self ++ concat (rows <$> tables).
Proof.
  induction tables as [|t tables IH]; intros self HM Hall Hb.
  - exists [], self. split; [reflexivity|].
    simpl. rewrite app_nil_r. reflexivity.
  - apply Forall_cons in Hall as [Ht Hall].
    destruct (transform_row_mode_conserves s self t HM Ht Hb)
      as (outs & self1 & Htr & HM1 & Hb1 & Hrows).
    destruct (IH self1) as (outs' & self2 & Hfeed & Hrows');
      [lia|exact Hall|exact Hb1|].
    exists (outs ++ outs'), self2. cbn [feed].
    rewrite Htr, Hfeed. split; [reflexivity|].
    rewrite fmap_app, concat_app, fmap_cons. cbn [concat].
    rewrite <- app_assoc, Hrows', !app_assoc, Hrows. reflexivity.
Qed.

(** C1: in row mode, a fresh instance that is given tables of one schema
    in order and is flushed once at the end raises nothing, and the rows
    of the tables it returned, taken in order over all calls and the
    flush, are exactly the rows of the tables it was given, in order. *)
Theorem row_mode_preserves_rows (s : Schema) self (tables : list (Table Row)) :
  max_rows_per_table self > 0 ->
  buffer self = None ->
  Forall (fun t => schema t = s) tables ->
  exists outs self',
    run_partition nbytes self tables = (Return outs, self') /\
    buffer self' = None /\
    concat (rows <$> outs) = concat (rows <$> tables).
Proof.
  intros HM Hbuf Hall.
  destruct (feed_row_mode_conserves s tables self) as (outs & self1 & Hfeed & Hrows);
    [lia|exact Hall|rewrite Hbuf; discriminate|].
  unfold run_partition. rewrite Hfeed.
  unfold buffered_rows in Hrows. rewrite Hbuf in Hrows. cbn [app] in Hrows.
  unfold flush. destruct (buffer self1) as [b|] eqn:Hb1.
  - eexists _, _. split; [reflexivity|]. split; [reflexivity|].
    rewrite fmap_app, concat_app. cbn. rewrite app_nil_r. exact Hrows.
  - eexists _, _. split; [reflexivity|]. split; [exact Hb1|].
    rewrite !app_nil_r in *. exact Hrows.
Qed.

End RowMode.

(** ** Size mode *)

Section SpecScanFacts.

Context {Row : Type}.
Variables (size : Row -> Z) (limit : pyfloat).

(** The scan only cuts: the closed chunks followed by the open one are
    the rows it was given. *)
Lemma spec_scan_conserves (todo : list Row) :
  forall chunk running closed open,
    spec_scan size limit todo chunk running = (closed, open) ->
    concat closed ++ open = chunk ++ todo.
Proof.
  induction todo as [|r todo IH]; intros chunk running closed open; cbn [spec_scan].
  - intros [= <- <-]. rewrite app_nil_r. reflexivity.
  - destruct (gtb (add running (of_int (size r))) limit).
    + destruct (spec_scan size limit todo [r] zero) as [closed' open'] eqn:E.
      intros [= <- <-]. cbn [concat]. rewrite <- app_assoc.
      rewrite (IH _ _ _ _ E). reflexivity.
    + intros E. rewrite (IH _ _ _ _ E), <- app_assoc. reflexivity.
Qed.

(** The last row scanned is never closed off. *)
Lemma spec_scan_open (todo : list Row) :
  forall chunk running closed open,
    spec_scan size limit todo chunk running = (closed, open) ->
    chunk ++ todo <> [] -> open <> [].
Proof.
  induction todo as [|r todo IH]; intros chunk running closed open; cbn [spec_scan].
  - intros [= <- <-]. rewrite app_nil_r. tauto.
  - destruct (gtb (add running (of_int (size r))) limit).
    + destruct (spec_scan size limit todo [r] zero) as [closed' open'] eqn:E.
      intros [= <- <-] _. apply (IH _ _ _ _ E). discriminate.
    + intros E _. apply (IH _ _ _ _ E).
      destruct chunk; discriminate.
Qed.

End SpecScanFacts.

Section ByteMode.

Context {Row : Type}.
Variable nbytes : Table Row -> Z.

Implicit Types (self : ResizeTransform Row) (table w : Table Row).

(** The [for] loop on offsets does what the scan on rows does. The table
    is cut into the rows before the open chunk, the open chunk, and the
    rows still to scan; the loop is about to visit the first of these. *)
Lemma byte_fold_refines table (limit : pyfloat) (todo : list Row) :
  forall (pre chunk : list Row) result current_size closed open,
    rows table = pre ++ chunk ++ todo ->
    spec_scan (row_size nbytes (schema table)) limit todo chunk current_size
    = (closed, open) ->
    exists start_row current_size',
      foldl (byte_step nbytes limit table)
            (result, Z.of_nat (length pre), current_size)
            (seqZ (Z.of_nat (length pre + length chunk)) (Z.of_nat (length todo)))
      = (result ++ (mkTable (schema table) <$> closed), start_row, current_size') /\
      0 <= start_row /\
      drop (Z.to_nat start_row) (rows table) = open.
Proof.
  induction todo as [|r todo IH];
    intros pre chunk result current_size closed open Hrows; cbn [spec_scan].
  - intros [= <- <-]. exists (Z.of_nat (length pre)), current_size.
    cbn. rewrite app_nil_r. split; [reflexivity|]. split; [lia|].
    rewrite Hrows, Nat2Z.id, app_nil_r. apply drop_app_length.
  - rewrite seqZ_cons by (cbn [length]; lia).
    cbn [foldl]. unfold byte_step at 2.
    assert (slice table (Z.of_nat (length pre + length chunk)) 1
            = mkTable (schema table) [r]) as ->.
    { unfold slice. f_equal. rewrite Hrows, Nat2Z.id, app_assoc.
      rewrite <- length_app, drop_app_length. reflexivity. }
    fold (row_size nbytes (schema table) r).
    replace (Z.pred (Z.of_nat (length (r :: todo)))) with (Z.of_nat (length todo))
      by (cbn [length]; lia).
    destruct (gtb (add current_size (of_int (row_size nbytes (schema table) r))) limit).
    + destruct (spec_scan (row_size nbytes (schema table)) limit todo [r] zero)
        as [closed' open'] eqn:E.
      intros [= <- <-].
      assert (slice table (Z.of_nat (length pre))
                    (Z.of_nat (length pre + length chunk) - Z.of_nat (length pre))
              = mkTable (schema table) chunk) as ->.
      { unfold slice. f_equal. rewrite Hrows, Nat2Z.id, drop_app_length.
        replace (Z.to_nat _) with (length chunk) by lia.
        apply take_app_length. }
      destruct (IH (pre ++ chunk) [r] (result ++ [mkTable (schema table) chunk])
                   zero closed' open') as (s' & c' & Hrun & Hs & Hdrop).
      { rewrite Hrows, <- app_assoc. reflexivity. }
      { exact E. }
      rewrite length_app in Hrun. cbn [length] in Hrun.
      replace (Z.succ (Z.of_nat (length pre + length chunk)))
        with (Z.of_nat (length pre + length chunk + 1)) by lia.
      rewrite Hrun. exists s', c'.
      rewrite fmap_cons, <- app_assoc. auto.
    + intros E.
      destruct (IH pre (chunk ++ [r]) result
                   (add current_size (of_int (row_size nbytes (schema table) r)))
                   closed open) as (s' & c' & Hrun & Hs & Hdrop).
      { rewrite Hrows, <- app_assoc. reflexivity. }
      { exact E. }
      rewrite length_app in Hrun. cbn [length] in Hrun.
      replace (Z.succ (Z.of_nat (length pre + length chunk)))
        with (Z.of_nat (length pre + (length chunk + 1))) by lia.
      rewrite Hrun. exists s', c'. auto.
Qed.

(** Lines 105-124 in size mode when the table exceeds the limit, on an
    instance whose buffer is empty. *)
Lemma split_table_over_limit self w closed open :
  max_rows_per_table self <= 0 ->
  buffer self = None ->
  gtb (of_int (nbytes w)) (max_bytes_per_table self) = true ->
  spec_scan (row_size nbytes (schema w)) (max_bytes_per_table self)
            (rows w) [] zero = (closed, open) ->
  split_table nbytes self w
  = (Return (mkTable (schema w) <$> closed, ∅),
     set_buffer self
       (match open with
        | [] => None
        | _ :: _ => Some (mkTable (schema w) open)
        end)).
Proof.
  intros HM Hbuf Hover Hscan. unfold split_table, byte_split.
  rewrite bool_decide_eq_false_2 by lia. rewrite Hover.
  destruct (byte_fold_refines w (max_bytes_per_table self) (rows w)
              [] [] [] zero closed open eq_refl Hscan)
    as (k & c & Hrun & Hk & Hdrop).
  cbn [length Nat.add app] in Hrun. change (Z.of_nat 0) with 0 in Hrun.
  unfold num_rows at 1. rewrite Hrun. cbn [fst].
  case_bool_decide as Hlt.
  - rewrite slice_to_end, Hdrop by lia.
    destruct open as [|r open]; [|reflexivity].
    apply (f_equal length) in Hdrop. rewrite length_drop in Hdrop.
    unfold num_rows in Hlt. cbn [length] in Hdrop. lia.
  - destruct open as [|r open].
    + rewrite set_buffer_same by assumption. reflexivity.
    + apply (f_equal length) in Hdrop. rewrite length_drop in Hdrop.
      unfold num_rows in Hlt. cbn [length] in Hdrop. lia.
Qed.

(** Lines 105-124 in size mode when the table does not exceed the limit. *)
Lemma split_table_within_limit self w :
  max_rows_per_table self <= 0 ->
  buffer self = None ->
  gtb (of_int (nbytes w)) (max_bytes_per_table self) = false ->
  split_table nbytes self w
  = (Return ([], ∅),
     set_buffer self (if bool_decide (0 < num_rows w) then Some w else None)).
Proof.
  intros HM Hbuf Hover. unfold split_table, byte_split.
  rewrite bool_decide_eq_false_2 by lia. rewrite Hover.
  case_bool_decide.
  - rewrite slice_whole. reflexivity.
  - rewrite set_buffer_same by assumption. reflexivity.
Qed.

(** C5: in size mode, on a working table [w] whose estimate exceeds the
    limit, [transform] returns what the scan of the specification closes
    and buffers what that scan leaves open: rows are visited in order,
    each adds its single-row estimate to the running total; when the
    total exceeds the limit the rows from the chunk's first row up to,
    not including, the current row are returned as one table, the total
    goes back to zero and the current row is the first of the next chunk;
    the rows after the last cut are the buffer, whatever they add up
    to. *)
Theorem byte_mode_scan self table w self1 closed open :
  max_rows_per_table self <= 0 ->
  merge_buffer self table = (Return w, self1) ->
  gtb (of_int (nbytes w)) (max_bytes_per_table self) = true ->
  spec_scan (row_size nbytes (schema w)) (max_bytes_per_table self)
            (rows w) [] zero = (closed, open) ->
  fst (transform nbytes self table)
  = Return (mkTable (schema w) <$> closed, ∅) /\
  buffer (snd (transform nbytes self table))
  = match open with
    | [] => None
    | _ :: _ => Some (mkTable (schema w) open)
    end /\
  max_rows_per_table (snd (transform nbytes self table))
  = max_rows_per_table self /\
  max_bytes_per_table (snd (transform nbytes self table))
  = max_bytes_per_table self.
Proof.
  intros HM Hmerge Hover Hscan. unfold transform. rewrite Hmerge.
  apply merge_buffer_Return in Hmerge as (-> & _ & _ & _).
  rewrite (split_table_over_limit (set_buffer self None) w closed open
             HM eq_refl Hover Hscan).
  repeat split.
Qed.

(** C6 (as amended): in size mode, on a working table [w] whose estimate
    is at most the limit, [transform] returns no table. When [w] has at
    least one row it becomes the buffer as it is, and the [flush] that
    follows returns it alone; when [w] has no row the buffer stays empty
    and [flush] returns nothing. *)
Theorem byte_mode_under_limit self table w self1 :
  max_rows_per_table self <= 0 ->
  merge_buffer self table = (Return w, self1) ->
  leb (of_int (nbytes w)) (max_bytes_per_table self) = true ->
  (0 < num_rows w ->
   transform nbytes self table = (Return ([], ∅), set_buffer self (Some w)) /\
   flush (set_buffer self (Some w)) = (Return ([w], ∅), set_buffer self None)) /\
  (num_rows w = 0 ->
   transform nbytes self table = (Return ([], ∅), set_buffer self None) /\
   flush (set_buffer self None) = (Return ([], ∅), set_buffer self None)).
Proof.
  intros HM Hmerge Hle. apply gtb_of_leb in Hle.
  unfold transform. rewrite Hmerge.
  apply merge_buffer_Return in Hmerge as (-> & _ & _ & _).
  rewrite (split_table_within_limit (set_buffer self None) w HM eq_refl Hle).
  split; intros Hn.
  - rewrite bool_decide_eq_true_2 by exact Hn. split; reflexivity.
  - rewrite bool_decide_eq_false_2 by lia. split; reflexivity.
Qed.

(** C9: in size mode, a call whose working table [w] has at least one row
    leaves a buffer that is not empty: the tables returned hold the first
    rows of [w], the buffer holds all the rows after them, and the last
    row of [w] is the last row of the buffer. *)
Theorem byte_mode_buffers_last_row self table w self1 :
  max_rows_per_table self <= 0 ->
  merge_buffer self table = (Return w, self1) ->
  0 < num_rows w ->
  exists outs b,
    fst (transform nbytes self table) = Return (outs, ∅) /\
    buffer (snd (transform nbytes self table)) = Some b /\
    rows b <> [] /\
    concat (rows <$> outs) ++ rows b = rows w /\
    last (rows b) = last (rows w).
Proof.
  intros HM Hmerge Hn. unfold transform. rewrite Hmerge.
  apply merge_buffer_Return in Hmerge as (-> & _ & _ & _).
  assert (rows w <> []) as Hne.
  { unfold num_rows in Hn. destruct (rows w); [cbn in Hn; lia|discriminate]. }
  destruct (gtb (of_int (nbytes w)) (max_bytes_per_table self)) eqn:Hover.
  - destruct (spec_scan (row_size nbytes (schema w)) (max_bytes_per_table self)
                        (rows w) [] zero) as [closed open] eqn:Hscan.
    rewrite (split_table_over_limit (set_buffer self None) w closed open
               HM eq_refl Hover Hscan).
    pose proof (spec_scan_conserves _ _ _ _ _ _ _ Hscan) as Hcat.
    pose proof (spec_scan_open _ _ _ _ _ _ _ Hscan Hne) as Hopen.
    cbn [app] in Hcat.
    destruct open as [|r open]; [contradiction|].
    exists (mkTable (schema w) <$> closed), (mkTable (schema w) (r :: open)).
    split; [reflexivity|]. split; [reflexivity|]. cbn [rows].
    assert (rows <$> (mkTable (schema w) <$> closed) = closed) as ->.
    { rewrite <- list_fmap_compose. apply list_fmap_id. }
    split; [discriminate|]. split; [exact Hcat|].
    rewrite <- Hcat, last_app_cons. reflexivity.
  - rewrite (split_table_within_limit (set_buffer self None) w HM eq_refl Hover).
    rewrite bool_decide_eq_true_2 by exact Hn.
    exists [], w. repeat split; assumption.
Qed.

(** C10: in size mode, when the working table [w] exceeds the limit and
    the estimate of its first row alone exceeds the limit, the first
    table that [transform] returns has no rows. *)
Theorem byte_mode_emits_empty_table self table w self1 :
  max_rows_per_table self <= 0 ->
  merge_buffer self table = (Return w, self1) ->
  0 < num_rows w ->
  gtb (of_int (nbytes w)) (max_bytes_per_table self) = true ->
  gtb (of_int (nbytes (slice w 0 1))) (max_bytes_per_table self) = true ->
  exists o outs self',
    transform nbytes self table = (Return (o :: outs, ∅), self') /\
    num_rows o = 0.
Proof.
  intros HM Hmerge Hn Hover Hfirst. unfold transform. rewrite Hmerge.
  apply merge_buffer_Return in Hmerge as (-> & _ & _ & _).
  destruct (spec_scan (row_size nbytes (schema w)) (max_bytes_per_table self)
                      (rows w) [] zero) as [closed open] eqn:Hscan.
  rewrite (split_table_over_limit (set_buffer self None) w closed open
             HM eq_refl Hover Hscan).
  destruct (rows w) as [|r rest] eqn:Hrows.
  { unfold num_rows in Hn. rewrite Hrows in Hn. cbn in Hn. lia. }
  assert (slice w 0 1 = mkTable (schema w) [r]) as Hslice.
  { unfold slice. rewrite Hrows. reflexivity. }
  rewrite Hslice in Hfirst. fold (row_size nbytes (schema w) r) in Hfirst.
  cbn [spec_scan] in Hscan.
  rewrite add_zero_of_int_gtb, Hfirst in Hscan.
  destruct (spec_scan (row_size nbytes (schema w)) (max_bytes_per_table self)
                      rest [r] zero) as [closed' open'].
  injection Hscan as <- <-.
  eexists _, _, _. split; [reflexivity|]. reflexivity.
Qed.

End ByteMode.

(** ** The properties on the sample data *)

Section Witnesses.

Import Sample.

Lemma row_mode_preserves_rows_witness :
  max_rows_per_table (by_rows 1000) > 0 /\
  buffer (by_rows 1000) = None /\
  Forall (fun t => schema t = schema_a) [rows_2500; rows_400] /\
  exists outs self',
    run_partition nbytes (by_rows 1000) [rows_2500; rows_400]
    = (Return outs, self') /\
    buffer self' = None /\
    concat (rows <$> outs) = concat (rows <$> [rows_2500; rows_400]).
Proof.
  assert (max_rows_per_table (by_rows 1000) > 0) as H1 by reflexivity.
  assert (buffer (by_rows 1000) = None) as H2 by reflexivity.
  assert (Forall (fun t => schema t = schema_a) [rows_2500; rows_400]) as H3
    by (repeat constructor).
  split; [exact H1|]. split; [exact H2|]. split; [exact H3|].
  exact (row_mode_preserves_rows nbytes schema_a (by_rows 1000)
           [rows_2500; rows_400] H1 H2 H3).
Defined.

Lemma row_mode_transform_witness :
  max_rows_per_table (by_rows 1000) > 0 /\
  merge_buffer (by_rows 1000) rows_2500 = (Return rows_2500, by_rows 1000) /\
  exists outs self',
    transform nbytes (by_rows 1000) rows_2500 = (Return (outs, ∅), self') /\
    num_rows <$> outs = [1000; 1000] /\
    exists b, buffer self' = Some b /\ num_rows b = 500.
Proof.
  assert (max_rows_per_table (by_rows 1000) > 0) as H1 by reflexivity.
  assert (merge_buffer (by_rows 1000) rows_2500
          = (Return rows_2500, by_rows 1000)) as H2 by reflexivity.
  split; [exact H1|]. split; [exact H2|].
  destruct (row_mode_transform nbytes (by_rows 1000) rows_2500 rows_2500
              (by_rows 1000) H1 H2)
    as (outs & self' & Htr & _ & _ & _ & _ & _ & Hsample).
  exists outs, self'. split; [exact Htr|].
  apply Hsample; reflexivity.
Defined.

Lemma transform_raises_on_mismatch_witness :
  buffer (holding (by_rows 1000) rows_400) = Some rows_400 /\
  schema rows_400 <> schema other_schema /\
  transform nbytes (holding (by_rows 1000) rows_400) other_schema
  = (Raise (ValueError "Can not concatenate buffered table with input table. Dropping buffer and proceeding."),
     holding (by_rows 1000) other_schema) /\
  exists outs self',
    transform nbytes (holding (by_rows 1000) rows_400) rows_2500
    = (Return (outs, ∅), self').
Proof.
  assert (buffer (holding (by_rows 1000) rows_400) = Some rows_400) as H1
    by reflexivity.
  assert (schema rows_400 <> schema other_schema) as H2 by discriminate.
  split; [exact H1|]. split; [exact H2|]. split.
  - exact (proj1 (transform_raises_on_mismatch nbytes
                    (holding (by_rows 1000) rows_400) other_schema)
                 rows_400 H1 H2).
  - apply (proj2 (transform_raises_on_mismatch nbytes
                    (holding (by_rows 1000) rows_400) rows_2500)).
    intros b [= <-]. reflexivity.
Defined.

Lemma byte_mode_scan_witness :
  max_rows_per_table (by_bytes 5) <= 0 /\
  merge_buffer (by_bytes 5) threes = (Return threes, by_bytes 5) /\
  gtb (of_int (nbytes threes)) (max_bytes_per_table (by_bytes 5)) = true /\
  spec_scan (row_size nbytes schema_a) (of_int 5) [3; 3; 3; 3] [] zero
  = ([[3]; [3; 3]], [3]) /\
  fst (transform nbytes (by_bytes 5) threes)
  = Return ([table schema_a [3]; table schema_a [3; 3]], ∅) /\
  buffer (snd (transform nbytes (by_bytes 5) threes))
  = Some (table schema_a [3]) /\
  max_rows_per_table (snd (transform nbytes (by_bytes 5) threes)) = -1 /\
  max_bytes_per_table (snd (transform nbytes (by_bytes 5) threes)) = of_int 5.
Proof.
  assert (max_rows_per_table (by_bytes 5) <= 0) as H1 by (simpl; lia).
  assert (merge_buffer (by_bytes 5) threes = (Return threes, by_bytes 5)) as H2
    by reflexivity.
  assert (gtb (of_int (nbytes threes)) (max_bytes_per_table (by_bytes 5)) = true)
    as H3 by reflexivity.
  assert (spec_scan (row_size nbytes (schema threes))
                    (max_bytes_per_table (by_bytes 5)) (rows threes) [] zero
          = ([[3]; [3; 3]], [3])) as H4 by reflexivity.
  split; [exact H1|]. split; [exact H2|]. split; [exact H3|].
  split; [exact H4|].
  exact (byte_mode_scan nbytes (by_bytes 5) threes threes (by_bytes 5)
           [[3]; [3; 3]] [3] H1 H2 H3 H4).
Defined.

Lemma byte_mode_under_limit_witness :
  max_rows_per_table (by_bytes 100) <= 0 /\
  (merge_buffer (by_bytes 100) threes = (Return threes, by_bytes 100) /\
   leb (of_int (nbytes threes)) (max_bytes_per_table (by_bytes 100)) = true /\
   0 < num_rows threes /\
   transform nbytes (by_bytes 100) threes
   = (Return ([], ∅), holding (by_bytes 100) threes) /\
   flush (holding (by_bytes 100) threes)
   = (Return ([threes], ∅), by_bytes 100)) /\
  (merge_buffer (by_bytes 100) no_rows = (Return no_rows, by_bytes 100) /\
   leb (of_int (nbytes no_rows)) (max_bytes_per_table (by_bytes 100)) = true /\
   num_rows no_rows = 0 /\
   transform nbytes (by_bytes 100) no_rows = (Return ([], ∅), by_bytes 100) /\
   flush (by_bytes 100) = (Return ([], ∅), by_bytes 100)).
Proof.
  assert (max_rows_per_table (by_bytes 100) <= 0) as H1 by (simpl; lia).
  assert (merge_buffer (by_bytes 100) threes = (Return threes, by_bytes 100))
    as H2 by reflexivity.
  assert (leb (of_int (nbytes threes)) (max_bytes_per_table (by_bytes 100)) = true)
    as H3 by reflexivity.
  assert (0 < num_rows threes) as H4 by reflexivity.
  assert (merge_buffer (by_bytes 100) no_rows = (Return no_rows, by_bytes 100))
    as H5 by reflexivity.
  assert (leb (of_int (nbytes no_rows)) (max_bytes_per_table (by_bytes 100)) = true)
    as H6 by reflexivity.
  assert (num_rows no_rows = 0) as H7 by reflexivity.
  split; [exact H1|]. split.
  - split; [exact H2|]. split; [exact H3|]. split; [exact H4|].
    exact (proj1 (byte_mode_under_limit nbytes (by_bytes 100) threes threes
                    (by_bytes 100) H1 H2 H3) H4).
  - split; [exact H5|]. split; [exact H6|]. split; [exact H7|].
    exact (proj2 (byte_mode_under_limit nbytes (by_bytes 100) no_rows no_rows
                    (by_bytes 100) H1 H5 H6) H7).
Defined.

Lemma flush_returns_buffer_witness :
  buffer (holding (by_rows 1000) rows_2500) = Some rows_2500 /\
  fst (flush (holding (by_rows 1000) rows_2500)) = Return ([rows_2500], ∅) /\
  buffer (by_rows 1000) = None /\
  fst (flush (by_rows 1000)) = Return ([], ∅).
Proof.
  assert (buffer (holding (by_rows 1000) rows_2500) = Some rows_2500) as H1
    by reflexivity.
  assert (buffer (by_rows 1000) = None) as H2 by reflexivity.
  split; [exact H1|]. split; [|split; [exact H2|]].
  - exact (proj1 (flush_returns_buffer (holding (by_rows 1000) rows_2500))
                 rows_2500 H1).
  - exact (proj1 (proj2 (flush_returns_buffer (by_rows 1000))) H2).
Defined.

Lemma byte_mode_buffers_last_row_witness :
  max_rows_per_table (by_bytes 5) <= 0 /\
  merge_buffer (by_bytes 5) threes = (Return threes, by_bytes 5) /\
  0 < num_rows threes /\
  exists outs b,
    fst (transform nbytes (by_bytes 5) threes) = Return (outs, ∅) /\
    buffer (snd (transform nbytes (by_bytes 5) threes)) = Some b /\
    rows b <> [] /\
    concat (rows <$> outs) ++ rows b = rows threes /\
    last (rows b) = last (rows threes).
Proof.
  assert (max_rows_per_table (by_bytes 5) <= 0) as H1 by (simpl; lia).
  assert (merge_buffer (by_bytes 5) threes = (Return threes, by_bytes 5)) as H2
    by reflexivity.
  assert (0 < num_rows threes) as H3 by reflexivity.
  split; [exact H1|]. split; [exact H2|]. split; [exact H3|].
  exact (byte_mode_buffers_last_row nbytes (by_bytes 5) threes threes
           (by_bytes 5) H1 H2 H3).
Defined.

Lemma byte_mode_emits_empty_table_witness :
  max_rows_per_table (by_bytes 5) <= 0 /\
  merge_buffer (by_bytes 5) seven_first = (Return seven_first, by_bytes 5) /\
  0 < num_rows seven_first /\
  gtb (of_int (nbytes seven_first)) (max_bytes_per_table (by_bytes 5)) = true /\
  gtb (of_int (nbytes (slice seven_first 0 1)))
      (max_bytes_per_table (by_bytes 5)) = true /\
  exists o outs self',
    transform nbytes (by_bytes 5) seven_first = (Return (o :: outs, ∅), self') /\
    num_rows o = 0.
Proof.
  assert (max_rows_per_table (by_bytes 5) <= 0) as H1 by (simpl; lia).
  assert (merge_buffer (by_bytes 5) seven_first
          = (Return seven_first, by_bytes 5)) as H2 by reflexivity.
  assert (0 < num_rows seven_first) as H3 by reflexivity.
  assert (gtb (of_int (nbytes seven_first))
              (max_bytes_per_table (by_bytes 5)) = true) as H4 by reflexivity.
  assert (gtb (of_int (nbytes (slice seven_first 0 1)))
              (max_bytes_per_table (by_bytes 5)) = true) as H5 by reflexivity.
  split; [exact H1|]. split; [exact H2|]. split; [exact H3|].
  split; [exact H4|]. split; [exact H5|].
  exact (byte_mode_emits_empty_table nbytes (by_bytes 5) seven_first
           seven_first (by_bytes 5) H1 H2 H3 H4 H5).
Defined.

(** *** Where the code departs from the text *)

(** Against C2: in row mode with limit 1000 and 400 rows of one schema
    buffered, the call on 2500 rows of another schema raises and leaves all
    2500 rows in the buffer, not fewer than 1000. *)
Lemma row_mode_transform_counterexample :
  let self := holding (by_rows 1000) rows_400 in
  let after := snd (transform nbytes self other_schema_2500) in
  max_rows_per_table self = 1000 /\
  is_Raise (fst (transform nbytes self other_schema_2500)) /\
  exists b,
    buffer after = Some b /\
    num_rows b = 2500 /\
    ~ num_rows b < max_rows_per_table self.
Proof.
  cbv zeta. split; [reflexivity|]. split; [exact I|].
  exists other_schema_2500. split; [reflexivity|]. split; [reflexivity|].
  vm_compute. discriminate.
Qed.

(** Against C3: on an instance that held 400 rows and has been flushed, a
    second [flush] returns no table and empty statistics, and a
    [transform] returns tables; neither raises. *)
Lemma calls_after_flush_counterexample :
  let flushed := snd (flush (holding (by_rows 1000) rows_400)) in
  fst (flush flushed) = Return ([], ∅) /\
  ~ is_Raise (fst (flush flushed)) /\
  ~ is_Raise (fst (transform nbytes flushed rows_2500)).
Proof.
  cbv zeta. split; [reflexivity|]. split.
  - simpl. tauto.
  - vm_compute. tauto.
Qed.

(** Against C4: with 400 rows of one schema buffered, [transform] on a
    well-formed table of another schema raises; it does not return. *)
Lemma transform_raises_counterexample :
  is_Raise (fst (transform nbytes (holding (by_rows 1000) rows_400)
                           other_schema)) /\
  ~ exists outs self',
      transform nbytes (holding (by_rows 1000) rows_400) other_schema
      = (Return outs, self').
Proof.
  split.
  - exact I.
  - intros (outs & self' & H). discriminate H.
Qed.

(** Against C6: a table without rows is within any positive byte limit,
    yet after [transform] it is not the buffer, and the [flush] that
    follows does not return it. *)
Lemma byte_mode_under_limit_counterexample :
  let after := snd (transform nbytes (by_bytes 100) no_rows) in
  max_rows_per_table (by_bytes 100) <= 0 /\
  merge_buffer (by_bytes 100) no_rows = (Return no_rows, by_bytes 100) /\
  leb (of_int (nbytes no_rows)) (max_bytes_per_table (by_bytes 100)) = true /\
  buffer after <> Some no_rows /\
  fst (flush after) <> Return ([no_rows], ∅).
Proof.
  cbv zeta. split; [simpl; lia|]. split; [reflexivity|]. split; [reflexivity|].
  split.
  - simpl. discriminate.
  - simpl. intros [=].
Qed.

End Witnesses.

(** * Further properties of the transform *)

(** ** What every call keeps *)

Section AnyMode.

Context {Row : Type}.
Variable nbytes : Table Row -> Z.

Implicit Types (self : ResizeTransform Row) (table w : Table Row).

Lemma tables_of_rows (s : Schema) (outs : list (Table Row)) :
  Forall (fun o => schema o = s) outs -> outs = mkTable s <$> (rows <$> outs).
Proof.
  induction 1 as [|o outs Ho _ IH]; [reflexivity|].
  rewrite !fmap_cons, <- IH. f_equal. destruct o; simpl in *. congruence.
Qed.

(** Lines 90-124 in either mode, on an instance whose buffer is empty: the
    tables returned are under the schema of the working table and hold its
    first rows; the rows after them are buffered, under the same schema,
    and a table without rows is never buffered. *)
Lemma split_table_spec self w :
  buffer self = None ->
  exists outs self',
    split_table nbytes self w = (Return (outs, ∅), self') /\
    max_rows_per_table self' = max_rows_per_table self /\
    max_bytes_per_table self' = max_bytes_per_table self /\
    Forall (fun o => schema o = schema w) outs /\
    (forall b, buffer self' = Some b -> schema b = schema w /\ rows b <> []) /\
    concat (rows <$> outs) ++ buffered_rows self' = rows w.
Proof.
  intros Hbuf.
  destruct (decide (0 < max_rows_per_table self)) as [HM|HM].
  - unfold split_table. rewrite bool_decide_eq_true_2 by lia.
    destruct (row_split_spec w (max_rows_per_table self) HM)
      as (outs & k & -> & Hk & _ & _ & Hall & Hcat).
    eexists outs, _. split; [reflexivity|].
    unfold buffered_rows. case_bool_decide as Hlt.
    + rewrite slice_to_end by lia. cbn [max_rows_per_table max_bytes_per_table
                                         set_buffer buffer rows].
      repeat split.
      * eapply Forall_impl; [exact Hall|]. intros o [_ Ho]. exact Ho.
      * injection H as <-. reflexivity.
      * injection H as <-. cbn [rows]. intros Hnil.
        apply (f_equal length) in Hnil. rewrite length_drop in Hnil.
        unfold num_rows in Hlt. cbn [length] in Hnil. lia.
      * rewrite Hcat. apply take_drop.
    + rewrite Hbuf. repeat split.
      * eapply Forall_impl; [exact Hall|]. intros o [_ Ho]. exact Ho.
      * discriminate.
      * discriminate.
      * rewrite app_nil_r, Hcat. apply take_ge. unfold num_rows in *. lia.
  - assert (max_rows_per_table self <= 0) as HM' by lia.
    destruct (gtb (of_int (nbytes w)) (max_bytes_per_table self)) eqn:Hover.
    + destruct (spec_scan (row_size nbytes (schema w)) (max_bytes_per_table self)
                          (rows w) [] zero) as [closed open] eqn:Hscan.
      rewrite (split_table_over_limit nbytes self w closed open HM' Hbuf Hover Hscan).
      pose proof (spec_scan_conserves _ _ _ _ _ _ _ Hscan) as Hcat.
      cbn [app] in Hcat.
      eexists _, _. split; [reflexivity|].
      assert (rows <$> (mkTable (schema w) <$> closed) = closed) as ->.
      { rewrite <- list_fmap_compose. apply list_fmap_id. }
      unfold buffered_rows.
      cbn [max_rows_per_table max_bytes_per_table set_buffer buffer].
      repeat split.
      * apply Forall_fmap, Forall_true. reflexivity.
      * destruct open; [discriminate|]. injection H as <-. reflexivity.
      * destruct open; [discriminate|]. injection H as <-. discriminate.
      * destruct open; exact Hcat.
    + rewrite (split_table_within_limit nbytes self w HM' Hbuf Hover).
      eexists _, _. split; [reflexivity|].
      unfold buffered_rows.
      cbn [max_rows_per_table max_bytes_per_table set_buffer buffer].
      repeat split.
      * constructor.
      * case_bool_decide; [|discriminate]. injection H as <-. reflexivity.
      * case_bool_decide as Hn; [|discriminate]. injection H as <-.
        unfold num_rows in Hn. destruct (rows w); [cbn in Hn; lia|discriminate].
      * case_bool_decide as Hn; [reflexivity|].
        unfold num_rows in Hn. destruct (rows w); [reflexivity|cbn in Hn; lia].
Qed.

(** A call that returns, in either mode. *)
Lemma transform_Return_spec self table outs stats self' :
  transform nbytes self table = (Return (outs, stats), self') ->
  stats = ∅ /\
  max_rows_per_table self' = max_rows_per_table self /\
  max_bytes_per_table self' = max_bytes_per_table self /\
  Forall (fun o => schema o = schema table) outs /\
  (forall b, buffer self' = Some b -> schema b = schema table /\ rows b <> []) /\
  concat (rows <$> outs) ++ buffered_rows self'
  = buffered_rows self ++ rows table.
Proof.
  unfold transform.
  destruct (merge_buffer self table) as [[w|e] self1] eqn:Hmerge; [|discriminate].
  apply merge_buffer_Return in Hmerge as (-> & Hsw & Hrw & _).
  destruct (split_table_spec (set_buffer self None) w eq_refl)
    as (outs1 & self1 & -> & HR & HB & Hall & Hb & Hcat).
  intros [= <- <- <-]. rewrite <- Hsw, <- Hrw. auto 10.
Qed.

(** A call that raises, in either mode. *)
Lemma transform_Raise_spec self table e self' :
  transform nbytes self table = (Raise e, self') ->
  self' = set_buffer self (Some table) /\
  exists b, buffer self = Some b /\ schema b <> schema table.
Proof.
  unfold transform, merge_buffer, concat_tables.
  destruct (buffer self) as [b|] eqn:Hb.
  - destruct (decide (schema b = schema table)) as [Hs|Hs].
    + destruct (split_table_spec (set_buffer self None)
                  (mkTable (schema b) (rows b ++ rows table)) eq_refl)
        as (outs & self1 & -> & _). discriminate.
    + intros [= <- <-]. eauto.
  - destruct (split_table_spec self table Hb) as (outs & self1 & -> & _).
    discriminate.
Qed.

(** A call on a table of the schema of what is buffered returns. *)
Lemma transform_same_schema self table :
  (forall b, buffer self = Some b -> schema b = schema table) ->
  exists outs self', transform nbytes self table = (Return (outs, ∅), self').
Proof.
  intros Hs.
  destruct (transform nbytes self table) as [[[outs stats]|e] self'] eqn:Htr.
  - destruct (transform_Return_spec _ _ _ _ _ Htr) as (-> & _). eauto.
  - apply transform_Raise_spec in Htr as (_ & b & Hb & Hne).
    exfalso. apply Hne, Hs, Hb.
Qed.

(** X1: in either mode, a call of [transform] that returns neither loses nor
    repeats nor reorders a row: the rows of the tables it returns followed
    by the rows it leaves in the buffer are the rows that were buffered
    before followed by the rows of the incoming table. *)
Theorem transform_conserves_rows self table outs stats self' :
  transform nbytes self table = (Return (outs, stats), self') ->
  concat (rows <$> outs) ++ buffered_rows self'
  = buffered_rows self ++ rows table.
Proof.
  intros Htr. apply (transform_Return_spec _ _ _ _ _ Htr).
Qed.

(** X2: whatever a call of [transform] does, it leaves both limits as they
    were. When it returns, every table returned and the table buffered
    afterwards have the schema of the incoming table, the buffered table has
    at least one row, and the statistics are empty; when it raises, the
    buffer is the incoming table itself. So after any call the buffer, if
    there is one, is under the schema of the table of that call. *)
Theorem transform_keeps_limits_and_schema self table r self' :
  transform nbytes self table = (r, self') ->
  max_rows_per_table self' = max_rows_per_table self /\
  max_bytes_per_table self' = max_bytes_per_table self /\
  (forall b, buffer self' = Some b -> schema b = schema table) /\
  match r with
  | Return (outs, stats) =>
      stats = ∅ /\
      Forall (fun o => schema o = schema table) outs /\
      (forall b, buffer self' = Some b -> rows b <> [])
  | Raise _ => buffer self' = Some table
  end.
Proof.
  destruct r as [[outs stats]|e]; intros Htr.
  - destruct (transform_Return_spec _ _ _ _ _ Htr) as (Hst & HR & HB & Hall & Hb & _).
    repeat split; try assumption; intros b Hbuf; apply (Hb b Hbuf).
  - apply transform_Raise_spec in Htr as (-> & _).
    repeat split. intros b [= <-]. reflexivity.
Qed.

(** The calls of a partition in either mode, on tables of one schema. *)
Lemma feed_conserves (s : Schema) (tables : list (Table Row)) :
  forall self,
    Forall (fun t => schema t = s) tables ->
    (forall b, buffer self = Some b -> schema b = s) ->
    exists outs self',
      feed nbytes self tables = (Return outs, self') /\
      Forall (fun o => schema o = s) outs /\
      (forall b, buffer self' = Some b -> schema b = s) /\
      concat (rows <$> outs) ++ buffered_rows self'
      = buffered_rows self ++ concat (rows <$> tables).
Proof.
  induction tables as [|t tables IH]; intros self Hall Hb.
  - exists [], self. split; [reflexivity|]. split; [constructor|].
    split; [exact Hb|]. simpl. rewrite app_nil_r. reflexivity.
  - apply Forall_cons in Hall as [Ht Hall].
    destruct (transform_same_schema self t) as (outs & self1 & Htr).
    { intros b Hbuf. rewrite (Hb b Hbuf). congruence. }
    destruct (transform_Return_spec _ _ _ _ _ Htr) as (_ & _ & _ & Hs1 & Hb1 & Hrows).
    destruct (IH self1 Hall) as (outs' & self2 & Hfeed & Hs2 & Hb2 & Hrows').
    { intros b Hbuf. rewrite <- Ht. apply (Hb1 b Hbuf). }
    exists (outs ++ outs'), self2. cbn [feed].
    rewrite Htr, Hfeed. split; [reflexivity|].
    split; [apply Forall_app; split; [rewrite <- Ht; exact Hs1|exact Hs2]|].
    split; [exact Hb2|].
    rewrite fmap_app, concat_app, fmap_cons. cbn [concat].
    rewrite <- app_assoc, Hrows', !app_assoc, Hrows. reflexivity.
Qed.

(** X3: in either mode, and so in size mode as in row mode, an instance
    with an empty buffer that is given tables of one schema in order and is
    flushed once at the end raises nothing, ends with an empty buffer, and
    has returned exactly the rows it was given, in order, in tables of that
    schema. *)
Theorem run_partition_preserves_rows (s : Schema) self (tables : list (Table Row)) :
  buffer self = None ->
  Forall (fun t => schema t = s) tables ->
  exists outs self',
    run_partition nbytes self tables = (Return outs, self') /\
    buffer self' = None /\
    Forall (fun o => schema o = s) outs /\
    concat (rows <$> outs) = concat (rows <$> tables).
Proof.
  intros Hbuf Hall.
  destruct (feed_conserves s tables self Hall)
    as (outs & self1 & Hfeed & Hs & Hb & Hrows);
    [rewrite Hbuf; discriminate|].
  unfold run_partition. rewrite Hfeed.
  unfold buffered_rows in Hrows. rewrite Hbuf in Hrows. cbn [app] in Hrows.
  unfold flush. destruct (buffer self1) as [b|] eqn:Hb1.
  - eexists _, _. split; [reflexivity|]. split; [reflexivity|]. split.
    + apply Forall_app. split; [exact Hs|].
      constructor; [apply Hb; reflexivity|constructor].
    + rewrite fmap_app, concat_app. cbn. rewrite app_nil_r. exact Hrows.
  - eexists _, _. split; [reflexivity|]. split; [exact Hb1|].
    rewrite !app_nil_r in *. split; assumption.
Qed.

(** X4: a call that raises does not end the instance. The table it was
    called on is kept; the next call on a table of that table's schema
    returns, and the rows it returns or buffers are the rows of the two
    tables in order. The rows that were buffered before the call that raised
    are in neither. *)
Theorem transform_after_raise self t1 e self1 t2 :
  transform nbytes self t1 = (Raise e, self1) ->
  schema t2 = schema t1 ->
  exists outs self2,
    transform nbytes self1 t2 = (Return (outs, ∅), self2) /\
    concat (rows <$> outs) ++ buffered_rows self2 = rows t1 ++ rows t2.
Proof.
  intros Hraise Hs.
  apply transform_Raise_spec in Hraise as (-> & _).
  destruct (transform_same_schema (set_buffer self (Some t1)) t2)
    as (outs & self2 & Htr).
  { intros b [= <-]. congruence. }
  exists outs, self2. split; [exact Htr|].
  apply (transform_Return_spec _ _ _ _ _ Htr).
Qed.

(** X5: in either mode, [transform] on a table without rows, on an instance
    with an empty buffer, returns no table and leaves the instance as it
    is. *)
Theorem transform_no_rows self table :
  buffer self = None ->
  rows table = [] ->
  transform nbytes self table = (Return ([], ∅), self).
Proof.
  intros Hbuf Hrows.
  unfold transform, merge_buffer. rewrite Hbuf.
  unfold split_table, row_split, byte_split, num_rows. rewrite Hrows.
  cbn [length Z.of_nat Z.to_nat row_loop seqZ fst].
  destruct (bool_decide (max_rows_per_table self > 0)); [reflexivity|].
  destruct (gtb (of_int (nbytes table)) (max_bytes_per_table self));
    reflexivity.
Qed.

End AnyMode.

(** ** Row mode over a whole partition *)

Section RowModeRun.

Context {Row : Type}.
Variable nbytes : Table Row -> Z.

Implicit Types (self : ResizeTransform Row) (table w : Table Row).

(** Lists are what their lengths and their concatenation make them. *)
Lemma reshape_concat (ls : list (list Row)) :
  reshape (length <$> ls) (concat ls) = ls.
Proof.
  induction ls as [|l ls IH]; [reflexivity|].
  rewrite fmap_cons. cbn [concat reshape].
  rewrite take_app_length, drop_app_length, IH. reflexivity.
Qed.

(** A call in row mode when no more than a partial table is buffered. *)
Lemma transform_row_mode_shape (s : Schema) self table :
  0 < max_rows_per_table self ->
  schema table = s ->
  (forall b, buffer self = Some b -> schema b = s) ->
  exists outs self',
    transform nbytes self table = (Return (outs, ∅), self') /\
    max_rows_per_table self' = max_rows_per_table self /\
    (forall b, buffer self' = Some b -> schema b = s /\ rows b <> []) /\
    Forall (fun o => num_rows o = max_rows_per_table self /\ schema o = s) outs /\
    Z.of_nat (length (buffered_rows self')) < max_rows_per_table self /\
    concat (rows <$> outs) ++ buffered_rows self'
    = buffered_rows self ++ rows table.
Proof.
  intros HM Hs Hb.
  destruct (transform_same_schema nbytes self table) as (outs & self' & Htr).
  { intros b Hbuf. rewrite (Hb b Hbuf). congruence. }
  destruct (transform_Return_spec _ _ _ _ _ _ Htr)
    as (_ & HR & _ & Hall & Hb' & Hcat).
  exists outs, self'. split; [exact Htr|]. split; [exact HR|].
  split; [rewrite <- Hs; exact Hb'|].
  unfold transform in Htr.
  destruct (merge_buffer self table) as [[w|e] self1] eqn:Hmerge; [|discriminate].
  apply merge_buffer_Return in Hmerge as (-> & _ & _ & _).
  destruct (split_table_row_mode nbytes (set_buffer self None) w HM eq_refl)
    as (outs1 & k & Hsplit & Hk & Hrem & _ & Hrows & _).
  rewrite Hsplit in Htr. injection Htr as <- <-.
  cbn [max_rows_per_table set_buffer] in Hrem, Hrows.
  split; [|split; [|exact Hcat]].
  - rewrite <- Hs. apply Forall_and. split; assumption.
  - unfold buffered_rows. cbn [buffer set_buffer].
    case_bool_decide; cbn [rows length]; [|lia].
    rewrite length_drop. unfold num_rows in *. lia.
Qed.

Lemma feed_row_mode_shape (s : Schema) (tables : list (Table Row)) :
  forall self,
    0 < max_rows_per_table self ->
    Forall (fun t => schema t = s) tables ->
    (forall b, buffer self = Some b -> schema b = s /\ rows b <> []) ->
    Z.of_nat (length (buffered_rows self)) < max_rows_per_table self ->
    exists outs self',
      feed nbytes self tables = (Return outs, self') /\
      (forall b, buffer self' = Some b -> schema b = s /\ rows b <> []) /\
      Forall (fun o => num_rows o = max_rows_per_table self /\ schema o = s) outs /\
      Z.of_nat (length (buffered_rows self')) < max_rows_per_table self /\
      concat (rows <$> outs) ++ buffered_rows self'
      = buffered_rows self ++ concat (rows <$> tables).
Proof.
  induction tables as [|t tables IH]; intros self HM Hall Hb Hlt.
  - exists [], self. split; [reflexivity|]. split; [exact Hb|].
    split; [constructor|]. split; [exact Hlt|].
    simpl. rewrite app_nil_r. reflexivity.
  - apply Forall_cons in Hall as [Ht Hall].
    destruct (transform_row_mode_shape s self t HM Ht)
      as (outs & self1 & Htr & HM1 & Hb1 & Hall1 & Hlt1 & Hrows).
    { intros b Hbuf. apply (Hb b Hbuf). }
    destruct (IH self1) as (outs' & self2 & Hfeed & Hb2 & Hall2 & Hlt2 & Hrows');
      [lia|exact Hall|exact Hb1|lia|].
    rewrite HM1 in Hall2, Hlt2.
    exists (outs ++ outs'), self2. cbn [feed].
    rewrite Htr, Hfeed. split; [reflexivity|]. split; [exact Hb2|].
    split; [apply Forall_app; split; assumption|]. split; [exact Hlt2|].
    rewrite fmap_app, concat_app, fmap_cons. cbn [concat].
    rewrite <- app_assoc, Hrows', !app_assoc, Hrows. reflexivity.
Qed.

(** X6: in row mode with limit [R], what a partition returns depends on the
    rows it was given and not on how they were cut into tables. A fresh
    instance that is given tables of one schema, [N] rows in all, and is
    flushed at the end returns these rows in order in [N / R] tables of
    exactly [R] rows, followed by one table of [N mod R] rows when that is
    not zero. *)
Theorem row_mode_run_shape (s : Schema) self (tables : list (Table Row)) :
  let R := max_rows_per_table self in
  let all_rows := concat (rows <$> tables) in
  let N := Z.of_nat (length all_rows) in
  R > 0 ->
  buffer self = None ->
  Forall (fun t => schema t = s) tables ->
  fst (run_partition nbytes self tables)
  = Return (mkTable s <$>
              reshape (replicate (Z.to_nat (N / R)) (Z.to_nat R)
                       ++ (if bool_decide (N `mod` R = 0) then []
                           else [Z.to_nat (N `mod` R)]))
                      all_rows).
Proof.
  intros R all_rows N HR Hbuf Hall.
  assert (0 < R) as HR' by lia.
  destruct (feed_row_mode_shape s tables self HR' Hall)
    as (outs & self1 & Hfeed & Hb & Hshape & Hlt & Hrows).
  { rewrite Hbuf. discriminate. }
  { unfold buffered_rows. rewrite Hbuf. cbn [length]. lia. }
  fold R in Hshape, Hlt.
  unfold buffered_rows in Hrows at 2. rewrite Hbuf in Hrows. cbn [app] in Hrows.
  fold all_rows in Hrows.
  apply Forall_and in Hshape as [Hnum Hsch].
  assert (length <$> (rows <$> outs) = replicate (length outs) (Z.to_nat R)) as Hlens.
  { clear -Hnum. induction Hnum as [|o outs Ho _ IH]; [reflexivity|].
    rewrite !fmap_cons, IH. cbn [length replicate]. f_equal.
    unfold num_rows in Ho. lia. }
  assert (N = R * Z.of_nat (length outs) + Z.of_nat (length (buffered_rows self1)))
    as HN.
  { assert (forall ls : list (list Row),
              length (concat ls) = sum_list (length <$> ls)) as Hsum.
    { induction ls as [|l ls IH]; [reflexivity|].
      cbn [concat]. rewrite length_app, IH. reflexivity. }
    unfold N. rewrite <- Hrows, length_app, Hsum, Hlens, sum_list_replicate.
    lia. }
  assert (Z.of_nat (length outs) = N / R) as Hq.
  { apply (Z.div_unique_pos _ _ _ (Z.of_nat (length (buffered_rows self1)))); lia. }
  assert (N `mod` R = Z.of_nat (length (buffered_rows self1))) as Hmod.
  { symmetry. apply (Z.mod_unique_pos _ _ (Z.of_nat (length outs))); lia. }
  rewrite <- Hq, Hmod, Nat2Z.id.
  unfold run_partition. rewrite Hfeed. unfold flush.
  unfold buffered_rows in Hrows, Hmod |- *.
  destruct (buffer self1) as [b|] eqn:Hb1; cbn [fst].
  - destruct (Hb b eq_refl) as [Hsb Hne].
    rewrite bool_decide_eq_false_2
      by (destruct (rows b); [contradiction|cbn [length]; lia]).
    rewrite Nat2Z.id. f_equal.
    rewrite (tables_of_rows s (outs ++ [b])).
    + f_equal. rewrite <- Hrows, <- Hlens.
      symmetry. rewrite fmap_app. change (rows <$> [b]) with [rows b].
      etrans; [|apply reshape_concat].
      rewrite fmap_app, concat_app.
      change (length <$> [rows b]) with [length (rows b)].
      change (concat [rows b]) with (rows b ++ []).
      rewrite app_nil_r. reflexivity.
    + apply Forall_app. split; [exact Hsch|]. constructor; [exact Hsb|constructor].
  - rewrite bool_decide_eq_true_2 by reflexivity.
    rewrite !app_nil_r in *. f_equal.
    rewrite (tables_of_rows s outs Hsch) at 1.
    f_equal. rewrite <- Hrows, <- Hlens. symmetry. apply reshape_concat.
Qed.

(** X7: in row mode with limit [R], as long as the rows buffered and the
    rows coming in are fewer than [R] together, a call returns no table and
    buffers all of them; the [flush] that follows returns them as one
    table. *)
Theorem row_mode_below_limit self table w self1 :
  max_rows_per_table self > 0 ->
  merge_buffer self table = (Return w, self1) ->
  0 < num_rows w < max_rows_per_table self ->
  transform nbytes self table = (Return ([], ∅), set_buffer self (Some w)) /\
  flush (set_buffer self (Some w)) = (Return ([w], ∅), set_buffer self None).
Proof.
  intros HR Hmerge Hn. split; [|reflexivity].
  unfold transform. rewrite Hmerge.
  apply merge_buffer_Return in Hmerge as (-> & _ & _ & _).
  destruct (split_table_row_mode nbytes (set_buffer self None) w)
    as (outs & k & -> & Hk & _ & Hlen & _ & _); [simpl; lia|reflexivity|].
  cbn [max_rows_per_table set_buffer] in Hlen.
  assert (outs = []) as ->.
  { destruct outs as [|o outs]; [reflexivity|]. cbn [length] in Hlen. nia. }
  cbn [length] in Hlen. replace k with 0 by lia.
  rewrite bool_decide_eq_true_2 by lia.
  cbn [set_buffer max_rows_per_table max_bytes_per_table Z.to_nat drop].
  destruct w; reflexivity.
Qed.

End RowModeRun.

(** ** Size mode: what the tables returned can hold *)

Section SpecScanBounds.

Context {Row : Type}.
Variables (size : Row -> Z) (limit : pyfloat).

Let total (l : list Row) : Z := foldr (fun r acc => size r + acc) 0 l.

Lemma total_snoc (l : list Row) (r : Row) : total (l ++ [r]) = total l + size r.
Proof. unfold total. induction l as [|x l IH]; cbn in *; lia. Qed.

Lemma gtb_same_value (q : Q) (z : Z) :
  (q == inject_Z z)%Q -> gtb (Fin q) limit = gtb (of_int z) limit.
Proof.
  intros Hq. unfold gtb, of_int.
  destruct limit as [ | | |y]; cbn [ltb]; try reflexivity.
  rewrite Hq. reflexivity.
Qed.

(** Every chunk that the scan closes after the first one begins with the
    row that made the total exceed the limit. *)
Lemma spec_scan_later_chunks (todo : list Row) :
  forall chunk running closed open,
    spec_scan size limit todo chunk running = (closed, open) ->
    (chunk <> [] -> Forall (fun c => c <> []) closed) /\
    Forall (fun c => c <> []) (tail closed).
Proof.
  induction todo as [|r todo IH]; intros chunk running closed open;
    cbn [spec_scan].
  - intros [= <- <-]. split; constructor.
  - destruct (gtb (add running (of_int (size r))) limit).
    + destruct (spec_scan size limit todo [r] zero) as [closed' open'] eqn:E.
      intros [= <- <-]. destruct (IH _ _ _ _ E) as [Hall _].
      cbn [tail]. split; [|apply Hall; discriminate].
      intros Hne. constructor; [exact Hne|apply Hall; discriminate].
    + intros E. destruct (IH _ _ _ _ E) as [Hall Htail].
      split; [|exact Htail].
      intros _. apply Hall. destruct chunk; discriminate.
Qed.

(** The scan closes a chunk only while the running total, which counts the
    rows of the chunk from the second one on (from the first one on, for the
    first chunk), has not exceeded the limit. [skipped] is the part of the
    open chunk that the running total does not count. *)
Lemma spec_scan_bounds (todo : list Row) :
  forall chunk running closed open skipped counted,
    spec_scan size limit todo chunk running = (closed, open) ->
    chunk = skipped ++ counted ->
    (exists q, running = Fin q /\ (q == inject_Z (total counted))%Q) ->
    (counted <> [] -> gtb running limit = false) ->
    match closed with
    | [] => True
    | c :: cs =>
        (exists counted',
            c = skipped ++ counted' /\
            (counted' <> [] -> gtb (of_int (total counted')) limit = false)) /\
        Forall (fun c' => tail c' <> [] ->
                          gtb (of_int (total (tail c'))) limit = false) cs
    end.
Proof.
  induction todo as [|r todo IH];
    intros chunk running closed open skipped counted; cbn [spec_scan].
  - intros [= <- <-]. tauto.
  - intros Hscan -> (q & -> & Hq) Hle.
    assert (exists q', add (Fin q) (of_int (size r)) = Fin q' /\
                       (q' == inject_Z (total (counted ++ [r])))%Q) as Hval.
    { eexists. split; [reflexivity|].
      rewrite total_snoc, inject_Z_plus, Hq. reflexivity. }
    destruct (gtb (add (Fin q) (of_int (size r))) limit) eqn:Hcross.
    + destruct (spec_scan size limit todo [r] zero) as [closed' open'] eqn:E.
      injection Hscan as <- <-. split.
      * exists counted. split; [reflexivity|].
        intros Hne. rewrite <- (gtb_same_value q _ Hq). apply Hle, Hne.
      * specialize (IH [r] zero closed' open' [r] [] E eq_refl).
        destruct closed' as [|c cs]; [constructor|].
        destruct IH as [(counted' & -> & Hc) Hcs].
        { exists 0%Q. split; reflexivity. }
        { intros Hne. contradiction. }
        constructor; [exact Hc|exact Hcs].
    + apply (IH _ _ _ _ skipped (counted ++ [r]) Hscan).
      * rewrite app_assoc. reflexivity.
      * exact Hval.
      * intros _. exact Hcross.
Qed.

End SpecScanBounds.

Section ByteModeOutputs.

Context {Row : Type}.
Variable nbytes : Table Row -> Z.

Implicit Types (self : ResizeTransform Row) (table w : Table Row).

(** What a call in size mode returns: nothing, or the chunks that the scan
    closes on the working table. *)
Lemma transform_byte_mode_outs self table outs stats self' :
  max_rows_per_table self <= 0 ->
  transform nbytes self table = (Return (outs, stats), self') ->
  outs = [] \/
  exists closed open,
    spec_scan (row_size nbytes (schema table)) (max_bytes_per_table self)
              (buffered_rows self ++ rows table) [] zero = (closed, open) /\
    outs = mkTable (schema table) <$> closed.
Proof.
  intros HM. unfold transform.
  destruct (merge_buffer self table) as [[w|e] self1] eqn:Hmerge; [|discriminate].
  apply merge_buffer_Return in Hmerge as (-> & Hsw & Hrw & _).
  destruct (gtb (of_int (nbytes w)) (max_bytes_per_table self)) eqn:Hover.
  - destruct (spec_scan (row_size nbytes (schema w)) (max_bytes_per_table self)
                        (rows w) [] zero) as [closed open] eqn:Hscan.
    rewrite (split_table_over_limit nbytes (set_buffer self None) w closed open
               HM eq_refl Hover Hscan).
    intros [= <- <- <-]. right. exists closed, open.
    rewrite <- Hsw, <- Hrw. split; [exact Hscan|reflexivity].
  - rewrite (split_table_within_limit nbytes (set_buffer self None) w
               HM eq_refl Hover).
    intros [= <- <- <-]. left. reflexivity.
Qed.

(** X8: in size mode, of the tables that one call returns only the first
    can be without rows: every later one begins with the row at which the
    running total exceeded the limit. *)
Theorem byte_mode_later_tables_have_rows self table outs stats self' :
  max_rows_per_table self <= 0 ->
  transform nbytes self table = (Return (outs, stats), self') ->
  Forall (fun o => 0 < num_rows o) (tail outs).
Proof.
  intros HM Htr.
  destruct (transform_byte_mode_outs _ _ _ _ _ HM Htr)
    as [->|(closed & open & Hscan & ->)]; [constructor|].
  destruct (spec_scan_later_chunks _ _ _ _ _ _ _ Hscan) as [_ Htail].
  destruct closed as [|c cs]; [constructor|].
  cbn [tail] in Htail. rewrite fmap_cons. cbn [tail].
  apply Forall_fmap. eapply Forall_impl; [exact Htail|].
  intros c' Hne. unfold num_rows. cbn. destruct c'; [contradiction|cbn; lia].
Qed.

(** X9: in size mode, the limit bounds the tables that a call returns in
    this sense only. The single-row estimates of the first table returned
    do not add up to more than the limit. For every later table it is the
    estimates of its rows after the first that do not add up to more than
    the limit: the estimate of its first row, the one at which the previous
    table was closed, is not counted. *)
Theorem byte_mode_output_estimates self table outs stats self' :
  max_rows_per_table self <= 0 ->
  transform nbytes self table = (Return (outs, stats), self') ->
  (forall o, head outs = Some o -> rows o <> [] ->
     gtb (of_int (rows_estimate nbytes (schema table) (rows o)))
         (max_bytes_per_table self) = false) /\
  Forall (fun o => tail (rows o) <> [] ->
            gtb (of_int (rows_estimate nbytes (schema table) (tail (rows o))))
                (max_bytes_per_table self) = false)
         (tail outs).
Proof.
  intros HM Htr.
  destruct (transform_byte_mode_outs _ _ _ _ _ HM Htr)
    as [->|(closed & open & Hscan & ->)].
  { split; [intros o [=]|constructor]. }
  pose proof (spec_scan_bounds _ _ _ _ _ _ _ [] [] Hscan eq_refl) as Hb.
  destruct closed as [|c cs]; [split; [intros o [=]|constructor]|].
  destruct Hb as [(counted' & -> & Hc) Hcs].
  { exists 0%Q. split; reflexivity. }
  { intros Hne. contradiction. }
  rewrite fmap_cons. cbn [head tail app]. split.
  - intros o [= <-]. cbn [rows]. exact Hc.
  - apply Forall_fmap. eapply Forall_impl; [exact Hcs|].
    intros c' Hc'. exact Hc'.
Qed.

End ByteModeOutputs.

(** ** Construction and validation *)

Section Construction.

Context {Row : Type}.

(** X10: the validation of the parameters and the constructor accept the
    same configurations. With [MB] and [LOCAL_TO_DISK] positive numbers and
    both limits present, [apply_input_params] answers [True] exactly when
    [__init__] returns an instance. *)
Theorem validation_agrees_with_init (mb ltd : Q) (max_rows : Z)
    (max_mbytes : pyfloat) (size_type : option string) :
  (0 < mb)%Q -> (0 < ltd)%Q ->
  apply_input_params (mkConfig (Some max_rows) (Some max_mbytes) size_type)
  = Return true
  <-> exists self : ResizeTransform Row,
        init (Fin mb) (Fin ltd)
             (mkConfig (Some max_rows) (Some max_mbytes) size_type)
        = Return self.
Proof.
  intros Hmb Hltd.
  rewrite (init_exactly_one mb ltd max_rows max_mbytes size_type Hmb Hltd).
  destruct (is_nan max_mbytes) eqn:Hnan.
  - destruct max_mbytes; try discriminate.
    unfold apply_input_params. cbn. rewrite !andb_false_r.
    split; intros _; [left|]; reflexivity.
  - rewrite (apply_input_params_exactly_one _ _ _ Hnan).
    split.
    + intros H. right. congruence.
    + intros [H|H]; [discriminate|congruence].
Qed.

(** X11: an instance that [__init__] returns for limits that are numbers is
    in exactly one mode. Its buffer is empty and its row limit is the one
    configured; either the row limit is positive and the byte limit is not,
    so that [transform] splits by rows, or the row limit is not positive
    and the byte limit is, so that [transform] splits by size against a
    positive limit. *)
Theorem init_gives_one_mode (mb ltd : Q) (max_rows : Z) (max_mbytes : pyfloat)
    (size_type : option string) (self : ResizeTransform Row) :
  (0 < mb)%Q -> (0 < ltd)%Q ->
  is_nan max_mbytes = false ->
  init (Fin mb) (Fin ltd) (mkConfig (Some max_rows) (Some max_mbytes) size_type)
  = Return self ->
  buffer self = None /\
  max_rows_per_table self = max_rows /\
  ((max_rows > 0 /\ leb (max_bytes_per_table self) zero = true) \/
   (max_rows <= 0 /\ gtb (max_bytes_per_table self) zero = true)).
Proof.
  intros Hmb Hltd Hnan. unfold init.
  cbn [cfg_max_rows_per_table cfg_max_mbytes_per_table cfg_size_type
       default from_option id].
  destruct (scale_sign mb ltd max_mbytes Hmb Hltd) as [[Hl1 Hg1] [Hl2 Hg2]].
  cbv zeta in Hl1, Hg1, Hl2, Hg2.
  pose proof (gtb_zero_or_leb_zero _ Hnan) as Hsign.
  assert (forall B : pyfloat,
             leb B zero = leb max_mbytes (of_int 0) ->
             gtb B zero = gtb max_mbytes (of_int 0) ->
             (if bool_decide (max_rows <= 0) && leb B zero
              then Raise (ValueError "Neither max rows per table nor max table size are defined")
              else if bool_decide (max_rows > 0) && gtb B zero
              then Raise (ValueError "Both max rows per table and max table size are defined. Only one should be present")
              else Return (mkResizeTransform max_rows B None)) = Return self ->
             buffer self = None /\
             max_rows_per_table self = max_rows /\
             ((max_rows > 0 /\ leb (max_bytes_per_table self) zero = true) \/
              (max_rows <= 0 /\ gtb (max_bytes_per_table self) zero = true)))
    as Hcases.
  { intros B Hl Hg. rewrite Hl, Hg, Hsign.
    destruct (leb max_mbytes (of_int 0)) eqn:Hle;
      repeat case_bool_decide; cbn [andb negb]; try discriminate; try lia;
      intros [= <-]; cbn [buffer max_rows_per_table max_bytes_per_table];
      rewrite ?Hl, ?Hg, ?Hsign; cbn [negb]; auto. }
  destruct (str_in size_type_default (default size_type_default size_type)).
  - apply Hcases; assumption.
  - apply Hcases; assumption.
Qed.

(** X12: when the configuration has no [max_mbytes_per_table], the byte
    limit counts as zero whatever finite [MB] and [LOCAL_TO_DISK] are:
    [__init__] raises [ValueError] unless [max_rows_per_table] is there and
    positive, and then returns an instance in row mode. A configuration
    without either limit is refused. *)
Theorem init_without_byte_limit (mb ltd : Q) (max_rows : option Z)
    (size_type : option string) :
  (default 0 max_rows <= 0 ->
   init (Row := Row) (Fin mb) (Fin ltd) (mkConfig max_rows None size_type)
   = Raise (ValueError "Neither max rows per table nor max table size are defined")) /\
  (default 0 max_rows > 0 ->
   exists self : ResizeTransform Row,
     init (Fin mb) (Fin ltd) (mkConfig max_rows None size_type) = Return self /\
     max_rows_per_table self = default 0 max_rows /\
     leb (max_bytes_per_table self) zero = true /\
     buffer self = None).
Proof.
  assert (Qle_bool (mb * inject_Z 0) 0 = true) as H1.
  { apply Qle_bool_iff. change (inject_Z 0) with 0%Q.
    rewrite Qmult_0_r. apply Qle_refl. }
  assert (Qle_bool (mb * inject_Z 0 * ltd) 0 = true) as H2.
  { apply Qle_bool_iff. change (inject_Z 0) with 0%Q.
    rewrite Qmult_0_r, Qmult_0_l. apply Qle_refl. }
  unfold init.
  cbn [cfg_max_rows_per_table cfg_max_mbytes_per_table cfg_size_type].
  change (default (of_int 0) None) with (of_int 0).
  unfold of_int, zero, gtb. cbn [mul].
  destruct (str_in size_type_default (default size_type_default size_type));
    cbn [mul leb ltb]; rewrite ?H1, ?H2; cbn [negb]; rewrite andb_false_r, andb_true_r.
  all: split; intros Hr;
    [ rewrite bool_decide_eq_true_2 by exact Hr; reflexivity
    | rewrite bool_decide_eq_false_2 by lia;
      eexists; split; [reflexivity|]; cbn; rewrite ?H1, ?H2; auto ].
Qed.

End Construction.

(** X13: with the defaults that [add_input_params] declares, a limit that
    the command line leaves out counts as not set. When no byte limit is
    given, the parameters pass [apply_input_params] exactly when a row limit
    is given and positive; when no row limit is given, they pass exactly
    when the byte limit given is positive (for a byte limit that is a
    number). A command line with neither limit does not pass. *)
Theorem one_limit_on_command_line (cl : CommandLine) :
  (given_max_mbytes_per_table cl = None ->
   apply_input_params (captured_params cl)
   = Return (match given_max_rows_per_table cl with
             | Some r => bool_decide (r > 0)
             | None => false
             end)) /\
  (given_max_rows_per_table cl = None ->
   forall m, given_max_mbytes_per_table cl = Some m -> is_nan m = false ->
   apply_input_params (captured_params cl) = Return (gtb m (of_int 0))).
Proof.
  destruct cl as [rows mbytes st]. unfold captured_params.
  cbn [given_max_rows_per_table given_max_mbytes_per_table given_size_type].
  split.
  - intros ->. cbn [default from_option id].
    rewrite apply_input_params_exactly_one by reflexivity.
    change (gtb default_max_mbytes_per_table (of_int 0)) with false.
    rewrite xorb_false_r. f_equal.
    destruct rows as [r|]; cbn [default from_option id]; reflexivity.
  - intros -> m -> Hnan. cbn [default from_option id].
    rewrite (apply_input_params_exactly_one _ _ _ Hnan).
    rewrite bool_decide_eq_false_2 by (unfold default_max_rows_per_table; lia).
    reflexivity.
Qed.

(** ** The further properties on the sample data *)

Section FurtherWitnesses.

Import Sample.

Lemma transform_conserves_rows_witness :
  transform nbytes (holding (by_bytes 5) (table schema_a [3])) threes
  = (Return ([table schema_a [3]; table schema_a [3; 3]], ∅),
     holding (by_bytes 5) (table schema_a [3; 3])) /\
  concat (rows <$> [table schema_a [3]; table schema_a [3; 3]])
  ++ buffered_rows (holding (by_bytes 5) (table schema_a [3; 3]))
  = buffered_rows (holding (by_bytes 5) (table schema_a [3])) ++ rows threes.
Proof.
  assert (transform nbytes (holding (by_bytes 5) (table schema_a [3])) threes
          = (Return ([table schema_a [3]; table schema_a [3; 3]], ∅),
             holding (by_bytes 5) (table schema_a [3; 3]))) as H by reflexivity.
  split; [exact H|].
  exact (transform_conserves_rows nbytes _ _ _ _ _ H).
Defined.

Lemma transform_keeps_limits_and_schema_witness :
  transform nbytes (holding (by_rows 1000) rows_400) other_schema
  = (Raise (ValueError "Can not concatenate buffered table with input table. Dropping buffer and proceeding."),
     holding (by_rows 1000) other_schema) /\
  max_rows_per_table (holding (by_rows 1000) other_schema) = 1000 /\
  max_bytes_per_table (holding (by_rows 1000) other_schema) = of_int 0 /\
  (forall b, buffer (holding (by_rows 1000) other_schema) = Some b ->
             schema b = schema other_schema) /\
  buffer (holding (by_rows 1000) other_schema) = Some other_schema.
Proof.
  assert (transform nbytes (holding (by_rows 1000) rows_400) other_schema
          = (Raise (ValueError "Can not concatenate buffered table with input table. Dropping buffer and proceeding."),
             holding (by_rows 1000) other_schema)) as H by reflexivity.
  split; [exact H|].
  exact (transform_keeps_limits_and_schema nbytes _ _ _ _ H).
Defined.

Lemma run_partition_preserves_rows_witness :
  buffer (by_bytes 5) = None /\
  Forall (fun t => schema t = schema_a) [threes; seven_first] /\
  exists outs self',
    run_partition nbytes (by_bytes 5) [threes; seven_first] = (Return outs, self') /\
    buffer self' = None /\
    Forall (fun o => schema o = schema_a) outs /\
    concat (rows <$> outs) = concat (rows <$> [threes; seven_first]).
Proof.
  assert (buffer (by_bytes 5) = None) as H1 by reflexivity.
  assert (Forall (fun t => schema t = schema_a) [threes; seven_first]) as H2
    by (repeat constructor).
  split; [exact H1|]. split; [exact H2|].
  exact (run_partition_preserves_rows nbytes schema_a (by_bytes 5)
           [threes; seven_first] H1 H2).
Defined.

Lemma transform_after_raise_witness :
  transform nbytes (holding (by_rows 1000) rows_400) other_schema
  = (Raise (ValueError "Can not concatenate buffered table with input table. Dropping buffer and proceeding."),
     holding (by_rows 1000) other_schema) /\
  schema other_schema = schema other_schema /\
  exists outs self2,
    transform nbytes (holding (by_rows 1000) other_schema) other_schema
    = (Return (outs, ∅), self2) /\
    concat (rows <$> outs) ++ buffered_rows self2
    = rows other_schema ++ rows other_schema.
Proof.
  assert (transform nbytes (holding (by_rows 1000) rows_400) other_schema
          = (Raise (ValueError "Can not concatenate buffered table with input table. Dropping buffer and proceeding."),
             holding (by_rows 1000) other_schema)) as H1 by reflexivity.
  assert (schema other_schema = schema other_schema) as H2 by reflexivity.
  split; [exact H1|]. split; [exact H2|].
  exact (transform_after_raise nbytes _ _ _ _ other_schema H1 H2).
Defined.

Lemma transform_no_rows_witness :
  buffer (by_bytes 100) = None /\
  rows no_rows = [] /\
  transform nbytes (by_bytes 100) no_rows = (Return ([], ∅), by_bytes 100).
Proof.
  assert (buffer (by_bytes 100) = None) as H1 by reflexivity.
  assert (rows no_rows = []) as H2 by reflexivity.
  split; [exact H1|]. split; [exact H2|].
  exact (transform_no_rows nbytes (by_bytes 100) no_rows H1 H2).
Defined.

Lemma row_mode_run_shape_witness :
  max_rows_per_table (by_rows 1000) > 0 /\
  buffer (by_rows 1000) = None /\
  Forall (fun t => schema t = schema_a) [rows_2500; rows_400] /\
  fst (run_partition nbytes (by_rows 1000) [rows_2500; rows_400])
  = Return (table schema_a <$> reshape [1000; 1000; 900]%nat (replicate 2900 8)).
Proof.
  assert (max_rows_per_table (by_rows 1000) > 0) as H1 by reflexivity.
  assert (buffer (by_rows 1000) = None) as H2 by reflexivity.
  assert (Forall (fun t => schema t = schema_a) [rows_2500; rows_400]) as H3
    by (repeat constructor).
  split; [exact H1|]. split; [exact H2|]. split; [exact H3|].
  exact (row_mode_run_shape nbytes schema_a (by_rows 1000)
           [rows_2500; rows_400] H1 H2 H3).
Defined.

Lemma row_mode_below_limit_witness :
  max_rows_per_table (by_rows 1000) > 0 /\
  merge_buffer (by_rows 1000) rows_400 = (Return rows_400, by_rows 1000) /\
  0 < num_rows rows_400 < max_rows_per_table (by_rows 1000) /\
  transform nbytes (by_rows 1000) rows_400
  = (Return ([], ∅), holding (by_rows 1000) rows_400) /\
  flush (holding (by_rows 1000) rows_400)
  = (Return ([rows_400], ∅), by_rows 1000).
Proof.
  assert (max_rows_per_table (by_rows 1000) > 0) as H1 by reflexivity.
  assert (merge_buffer (by_rows 1000) rows_400 = (Return rows_400, by_rows 1000))
    as H2 by reflexivity.
  assert (0 < num_rows rows_400 < max_rows_per_table (by_rows 1000)) as H3
    by (split; reflexivity).
  split; [exact H1|]. split; [exact H2|]. split; [exact H3|].
  exact (row_mode_below_limit nbytes (by_rows 1000) rows_400 rows_400
           (by_rows 1000) H1 H2 H3).
Defined.

Lemma byte_mode_later_tables_have_rows_witness :
  max_rows_per_table (by_bytes 5) <= 0 /\
  transform nbytes (by_bytes 5) seven_first
  = (Return ([table schema_a []; table schema_a [7; 3]], ∅),
     holding (by_bytes 5) (table schema_a [3; 3])) /\
  Forall (fun o => 0 < num_rows o)
         (tail [table schema_a []; table schema_a [7; 3]]).
Proof.
  assert (max_rows_per_table (by_bytes 5) <= 0) as H1 by (simpl; lia).
  assert (transform nbytes (by_bytes 5) seven_first
          = (Return ([table schema_a []; table schema_a [7; 3]], ∅),
             holding (by_bytes 5) (table schema_a [3; 3]))) as H2 by reflexivity.
  split; [exact H1|]. split; [exact H2|].
  exact (byte_mode_later_tables_have_rows nbytes _ _ _ _ _ H1 H2).
Defined.

Lemma byte_mode_output_estimates_witness :
  max_rows_per_table (by_bytes 5) <= 0 /\
  transform nbytes (by_bytes 5) threes
  = (Return ([table schema_a [3]; table schema_a [3; 3]], ∅),
     holding (by_bytes 5) (table schema_a [3])) /\
  gtb (of_int (rows_estimate nbytes schema_a [3])) (of_int 5) = false /\
  gtb (of_int (rows_estimate nbytes schema_a [3; 3])) (of_int 5) = true /\
  gtb (of_int (rows_estimate nbytes schema_a (tail [3; 3]))) (of_int 5) = false.
Proof.
  assert (max_rows_per_table (by_bytes 5) <= 0) as H1 by (simpl; lia).
  assert (transform nbytes (by_bytes 5) threes
          = (Return ([table schema_a [3]; table schema_a [3; 3]], ∅),
             holding (by_bytes 5) (table schema_a [3]))) as H2 by reflexivity.
  split; [exact H1|]. split; [exact H2|].
  destruct (byte_mode_output_estimates nbytes _ _ _ _ _ H1 H2) as [Hhead Htail].
  split; [apply (Hhead (table schema_a [3]) eq_refl); discriminate|].
  split; [reflexivity|].
  apply Forall_cons in Htail as [Hlater _].
  apply Hlater. discriminate.
Defined.

Lemma validation_agrees_with_init_witness :
  (0 < 1048576)%Q /\ (0 < 2)%Q /\
  (apply_input_params (mkConfig (Some 1000) (Some (of_int (-1))) None)
   = Return true
   <-> exists self : ResizeTransform Z,
         init (Fin 1048576) (Fin 2)
              (mkConfig (Some 1000) (Some (of_int (-1))) None)
         = Return self).
Proof.
  assert (0 < 1048576)%Q as H1 by reflexivity.
  assert (0 < 2)%Q as H2 by reflexivity.
  split; [exact H1|]. split; [exact H2|].
  exact (validation_agrees_with_init 1048576 2 1000 (of_int (-1)) None H1 H2).
Defined.

Lemma init_gives_one_mode_witness :
  (0 < 1048576)%Q /\ (0 < 2)%Q /\
  is_nan (of_int 1) = false /\
  init (Fin 1048576) (Fin 2) (mkConfig (Some (-1)) (Some (of_int 1)) None)
  = Return (by_bytes 2097152) /\
  buffer (by_bytes 2097152) = None /\
  max_rows_per_table (by_bytes 2097152) = -1 /\
  ((-1 > 0 /\ leb (max_bytes_per_table (by_bytes 2097152)) zero = true) \/
   (-1 <= 0 /\ gtb (max_bytes_per_table (by_bytes 2097152)) zero = true)).
Proof.
  assert (0 < 1048576)%Q as H1 by reflexivity.
  assert (0 < 2)%Q as H2 by reflexivity.
  assert (is_nan (of_int 1) = false) as H3 by reflexivity.
  assert (init (Fin 1048576) (Fin 2) (mkConfig (Some (-1)) (Some (of_int 1)) None)
          = Return (by_bytes 2097152)) as H4 by reflexivity.
  split; [exact H1|]. split; [exact H2|]. split; [exact H3|]. split; [exact H4|].
  exact (init_gives_one_mode 1048576 2 (-1) (of_int 1) None (by_bytes 2097152)
           H1 H2 H3 H4).
Defined.

Lemma init_without_byte_limit_witness :
  (default 0 (None : option Z) <= 0 /\
   init (Row := Z) (Fin 1048576) (Fin 2) (mkConfig None None None)
   = Raise (ValueError "Neither max rows per table nor max table size are defined")) /\
  (default 0 (Some 1000) > 0 /\
   exists self : ResizeTransform Z,
     init (Fin 1048576) (Fin 2) (mkConfig (Some 1000) None None) = Return self /\
     max_rows_per_table self = default 0 (Some 1000) /\
     leb (max_bytes_per_table self) zero = true /\
     buffer self = None).
Proof.
  assert (default 0 (None : option Z) <= 0) as H1 by (simpl; lia).
  assert (default 0 (Some 1000) > 0) as H2 by reflexivity.
  split.
  - split; [exact H1|].
    exact (proj1 (init_without_byte_limit 1048576 2 None None) H1).
  - split; [exact H2|].
    exact (proj2 (init_without_byte_limit 1048576 2 (Some 1000) None) H2).
Defined.

Lemma one_limit_on_command_line_witness :
  (given_max_mbytes_per_table (mkCommandLine (Some 1000) None None) = None /\
   apply_input_params (captured_params (mkCommandLine (Some 1000) None None))
   = Return true) /\
  (given_max_mbytes_per_table (mkCommandLine None None None) = None /\
   apply_input_params (captured_params (mkCommandLine None None None))
   = Return false) /\
  (given_max_rows_per_table (mkCommandLine None (Some (of_int 1)) None) = None /\
   is_nan (of_int 1) = false /\
   apply_input_params
     (captured_params (mkCommandLine None (Some (of_int 1)) None))
   = Return true).
Proof.
  split; [|split].
  - split; [reflexivity|].
    exact (proj1 (one_limit_on_command_line (mkCommandLine (Some 1000) None None))
                 eq_refl).
  - split; [reflexivity|].
    exact (proj1 (one_limit_on_command_line (mkCommandLine None None None))
                 eq_refl).
  - split; [reflexivity|]. split; [reflexivity|].
    exact (proj2 (one_limit_on_command_line
                    (mkCommandLine None (Some (of_int 1)) None))
                 eq_refl (of_int 1) eq_refl eq_refl).
Defined.

End FurtherWitnesses.
